(** * CDoS-6Mbps-adhoc-UDP-building: load calibration and experiment set-up

    A shallow embedding of [experiment] and [main] of
    [CDoS-6Mbps-adhoc-UDP-building.cc].  The ns-3 engine, the Wi-Fi stack,
    the traffic generators and the file system are external: the model keeps
    the calls the program makes to them, in order, with the arguments the
    program computes, and takes each call to return.  The numbers that go
    into the descriptors of the traffic generators are computed in binary64,
    rounding by rounding.  Where the program does what C++ leaves undefined,
    the model's account of the run ends. *)

From Stdlib Require Import ZArith QArith Qabs Qround Qpower List String Ascii Bool.
From Stdlib Require Import Lia Lqa.
From Stdlib Require Import DecimalString DecimalPos DecimalZ.
From Stdlib Require Import PrimFloat.
From Stdlib Require SpecFloat FloatOps.
Import ListNotations.

Local Open Scope Z_scope.

(** ** Machine numbers *)

(** [uint16_t]: a conversion to it reduces modulo 2^16. *)
Definition to_uint16 (z : Z) : Z := z mod 65536.

(** Rounding to the nearest integer, ties to even: the rounding of
    binary64 arithmetic, and what the C library does with the exact value of
    a double when it writes it in decimal. *)
Definition round_half_even (q : Q) : Z :=
  let f := Qfloor q in
  match (q - inject_Z f ?= 1 # 2)%Q with
  | Lt => f
  | Gt => (f + 1)%Z
  | Eq => if Z.even f then f else (f + 1)%Z
  end.

(** [double].  A finite double is a rational number and is kept as that
    number; infinities and NaN follow IEEE 754.  Zero carries no sign: a
    division of a non-zero number by zero gives the infinity of the sign of
    the dividend, and the double [-0.0] is not among the values.

    [add], [sub], [mul] and [div] give the exact result of an operation, in
    lowest terms.  [round] takes a rational number to binary64: to the
    nearest number with a significand of 53 bits and a unit in the last place
    of 2^-1074 at least, ties to the even significand, and to an infinity
    from 2^1024 - 2^970 on.  In [binary64_scope] every operation is followed
    by that rounding, as the machine does it; the load calibration is written
    in that scope.  The positions and the start times, each the sum of a
    decimal literal and a small multiple, are kept exact ([double_scope]): a
    decimal literal such as [3.100] denotes 31/10 there. *)
Module Double.

Inductive double : Type :=
| Finite (q : Q)
| Infinity (negative : bool)
| NaN.

Definition of_Z (z : Z) : double := Finite (inject_Z z).

Definition Qneg_bool (q : Q) : bool := negb (Qle_bool 0 q).

Definition Qzero_bool (q : Q) : bool := Qeq_bool q 0.

Definition opp (x : double) : double :=
  match x with
  | Finite q => Finite (Qred (- q))
  | Infinity s => Infinity (negb s)
  | NaN => NaN
  end.

Definition add (x y : double) : double :=
  match x, y with
  | NaN, _ | _, NaN => NaN
  | Finite a, Finite b => Finite (Qred (a + b))
  | Infinity s, Finite _ | Finite _, Infinity s => Infinity s
  | Infinity s, Infinity t => if Bool.eqb s t then Infinity s else NaN
  end.

Definition sub (x y : double) : double := add x (opp y).

Definition mul (x y : double) : double :=
  match x, y with
  | NaN, _ | _, NaN => NaN
  | Finite a, Finite b => Finite (Qred (a * b))
  | Infinity s, Finite b | Finite b, Infinity s =>
      if Qzero_bool b then NaN else Infinity (xorb s (Qneg_bool b))
  | Infinity s, Infinity t => Infinity (xorb s t)
  end.

Definition div (x y : double) : double :=
  match x, y with
  | NaN, _ | _, NaN => NaN
  | Finite a, Finite b =>
      if Qzero_bool b
      then (if Qzero_bool a then NaN else Infinity (Qneg_bool a))
      else Finite (Qred (a / b))
  | Finite _, Infinity _ => Finite 0
  | Infinity s, Finite b => Infinity (xorb s (Qneg_bool b))
  | Infinity _, Infinity _ => NaN
  end.

(** The C++ [==]: NaN equals nothing. *)
Definition eqb (x y : double) : bool :=
  match x, y with
  | Finite a, Finite b => Qeq_bool a b
  | Infinity s, Infinity t => Bool.eqb s t
  | _, _ => false
  end.

(** The C++ [<]. *)
Definition ltb (x y : double) : bool :=
  match x, y with
  | Finite a, Finite b => negb (Qle_bool b a)
  | Infinity true, Finite _ | Finite _, Infinity false => true
  | Infinity true, Infinity false => true
  | _, _ => false
  end.

(** The integer part of the binary logarithm of a positive number. *)
Definition ilog2 (q : Q) : Z :=
  let k := Z.log2 (Qnum q) - Z.log2 (Zpos (Qden q)) in
  if Qle_bool (2 ^ k) q then k else k - 1.

(** The exponent of the unit in the last place of the binary64 numbers next
    to a positive [q]: 52 binary places below [q], and -1074 for the
    subnormal numbers. *)
Definition ulp_exponent (q : Q) : Z := Z.max (ilog2 q - 52) (-1074).

(** The multiple of that unit nearest to a positive [q]. *)
Definition round_positive (q : Q) : Q :=
  let e := ulp_exponent q in
  (inject_Z (round_half_even (q / 2 ^ e)) * 2 ^ e)%Q.

(** The binary64 number nearest to [q]. *)
Definition round (q : Q) : double :=
  let q := Qred q in
  if Qzero_bool q then Finite 0
  else
    let r := round_positive (Qabs q) in
    if Qle_bool (2 ^ 1024) r then Infinity (Qneg_bool q)
    else Finite (Qred (if Qneg_bool q then - r else r)).

(** The result of an operation as the machine keeps it. *)
Definition binary64 (x : double) : double :=
  match x with
  | Finite q => round q
  | _ => x
  end.

(** The operations of the machine. *)
Definition add64 (x y : double) : double := binary64 (add x y).
Definition sub64 (x y : double) : double := binary64 (sub x y).
Definition mul64 (x y : double) : double := binary64 (mul x y).
Definition div64 (x y : double) : double := binary64 (div x y).

End Double.

Import Double.

Declare Scope double_scope.
Delimit Scope double_scope with dbl.
Bind Scope double_scope with double.
Infix "+" := Double.add : double_scope.
Infix "-" := Double.sub : double_scope.
Infix "*" := Double.mul : double_scope.
Infix "/" := Double.div : double_scope.
Infix "==" := Double.eqb (at level 70, no associativity) : double_scope.

Declare Scope binary64_scope.
Delimit Scope binary64_scope with b64.
Arguments Double.add64 (x y)%_b64.
Arguments Double.sub64 (x y)%_b64.
Arguments Double.mul64 (x y)%_b64.
Arguments Double.div64 (x y)%_b64.
Infix "+" := Double.add64 : binary64_scope.
Infix "-" := Double.sub64 : binary64_scope.
Infix "*" := Double.mul64 : binary64_scope.
Infix "/" := Double.div64 : binary64_scope.

(** ** Writing a double to a stream *)

(** [decimal_normalize fuel q e] moves the decimal point of [q]: it gives
    [(m, e')] with [m * 10^e' = q * 10^e] and, given fuel enough,
    [1 <= m < 10]. *)
Fixpoint decimal_normalize (fuel : nat) (q : Q) (e : Z) : Q * Z :=
  match fuel with
  | O => (q, e)
  | S fuel' =>
      if Qle_bool 10 q then decimal_normalize fuel' (q / 10) (e + 1)
      else if Qle_bool 1 q then (q, e)
      else decimal_normalize fuel' (q * 10) (e - 1)
  end.

Definition decimal_fuel (q : Q) : nat :=
  Z.to_nat (Z.log2 (Qnum q) + Z.log2 (Zpos (Qden q)) + 2).

(** A positive number rounded to [digits] significant decimal digits. *)
Definition round_significant (digits : Z) (q : Q) : Q :=
  let (m, e) := decimal_normalize (decimal_fuel q) q 0 in
  (inject_Z (round_half_even (m * 10 ^ (digits - 1)))
   * 10 ^ (e - (digits - 1)))%Q.

(** [stream << x] for a double [x], on a stream with the default format and
    the default precision 6: the number the text written denotes, which is
    [x] rounded to 6 significant decimal digits ([inf] and [nan] are written
    as such). *)
Definition stream_double (x : double) : double :=
  match x with
  | Finite q =>
      if Qzero_bool q then Finite 0
      else if Qneg_bool q then Finite (Qred (- round_significant 6 (- q)))
      else Finite (Qred (round_significant 6 q))
  | _ => x
  end.

(** ** Load calibration (lines 131-158 of the source) *)

(** The nominal rate of [ErpOfdmRate6Mbps] as the source writes it. *)
Definition link_rate : Z := 6000000.

(** [(double)1/6000000 * PktLength*8]: a quotient and two products, from
    left to right, each rounded. *)
Definition pkt_time (PktLength : Z) : double :=
  (of_Z 1 / of_Z link_rate * of_Z PktLength * of_Z 8)%b64.

(** [1/(load*(1/pkt_time))-pkt_time] *)
Definition offtime_mean (load pkt_time : double) : double :=
  (of_Z 1 / (load * (of_Z 1 / pkt_time)) - pkt_time)%b64.

(** The packet time in seconds as a rational number,
    [PktLength * 8 / 6000000]. *)
Definition packet_seconds (PktLength : Z) : Q :=
  (inject_Z PktLength * 8 / 6000000)%Q.

(** ** Strings the program formats *)

Local Open Scope string_scope.

(** [stream << n] and [printf ("%d", n)] for an integer. *)
Definition string_of_Z (z : Z) : string := NilZero.string_of_int (Z.to_int z).

Definition two_digits (n : Z) : string :=
  (if (n <? 10)%Z then "0" else "") ++ string_of_Z n.

(** [printf ("%.2f", x)]; the minimum width 1 of ["%1.2f"] never pads. *)
Definition printf_2f (x : double) : string :=
  match x with
  | Finite q =>
      let n := round_half_even (Qabs q * 100) in
      (if Qneg_bool q then "-" else "")
        ++ string_of_Z (n / 100) ++ "." ++ two_digits (n mod 100)
  | Infinity s => (if s then "-" else "") ++ "inf"
  | NaN => "nan"
  end.

(** [ipv4address << "10.0.0." << (i*2+2)] *)
Definition ipv4address (i : Z) : string := "10.0.0." ++ string_of_Z (i * 2 + 2).

(** The text of
    [sprintf (pathname, "./CDoS-6Mbps-adhoc-UDP-building/u_0=%1.2frho=%.2fT=%d",
              FirstNodeLoad, RestNodeLoad, PktLength)]. *)
Definition pathname_text (FirstNodeLoad RestNodeLoad : double) (PktLength : Z)
  : string :=
  "./CDoS-6Mbps-adhoc-UDP-building/u_0=" ++ printf_2f FirstNodeLoad
    ++ "rho=" ++ printf_2f RestNodeLoad ++ "T=" ++ string_of_Z PktLength.

(** [char pathname [50]] *)
Definition pathname_size : nat := 50.

(** A text fits an array when its characters and the terminating NUL do. *)
Definition fits (size : nat) (text : string) : bool :=
  (String.length text + 1 <=? size)%nat.

(** ** Attributes, helpers and applications *)

Inductive RandomVariable : Type :=
| ConstantRandomVariable (Constant : double)
| ExponentialRandomVariable (Mean : double).

(** The values handed to [SetAttribute] and [SetDefault].  A random-variable
    descriptor, the text ["ns3::XRandomVariable[Param=v]"], is kept as the
    variable and the number its text [v] denotes: the literal of the source,
    or what [stream_double] gives for a double streamed into the text.
    [TimeValue t] is [TimeValue (Seconds (t))]. *)
Inductive AttributeValue : Type :=
| UintegerValue (n : Z)
| StringValue (s : string)
| TimeValue (seconds : double)
| AddressValue (ip : string) (port : option Z)
| RandomVariableValue (rv : RandomVariable).

(** An application helper: the type of application it installs and the
    attributes set on it so far, oldest first. *)
Record Helper : Type := mkHelper {
  type_id : string;
  attributes : list (string * AttributeValue)
}.

Definition SetAttribute (name : string) (v : AttributeValue) (h : Helper)
  : Helper :=
  mkHelper (type_id h) (attributes h ++ [(name, v)]).

(** The value an attribute holds: the one set last, if any was. *)
Definition GetAttribute (name : string) (h : Helper) : option AttributeValue :=
  match find (fun a => String.eqb (fst a) name) (rev (attributes h)) with
  | Some a => Some (snd a)
  | None => None
  end.

Definition OnOffHelper (protocol ip : string) (port : Z) : Helper :=
  mkHelper "ns3::OnOffApplication"
    [("Protocol", StringValue protocol); ("Remote", AddressValue ip (Some port))].

Definition PacketSinkHelper (protocol ip : string) (port : Z) : Helper :=
  mkHelper "ns3::PacketSink"
    [("Protocol", StringValue protocol); ("Local", AddressValue ip (Some port))].

Definition UdpEchoClientHelper (ip : string) (port : Z) : Helper :=
  mkHelper "ns3::UdpEchoClient"
    [("RemoteAddress", AddressValue ip None);
     ("RemotePort", UintegerValue port)].

Definition cbrPort : Z := 12345.
Definition echoPort : Z := 9.

(** The index the source compares [i] with: [(uint16_t)(NumofNode/2-1)]. *)
Definition attacking_index (NumofNode : Z) : Z := to_uint16 (NumofNode / 2 - 1).

(** Lines 129-158: the on/off helper of flow [i]. *)
Definition onoffhelper (NumofNode : Z) (FirstNodeLoad RestNodeLoad : double)
    (PktLength : Z) (i : Z) : Helper :=
  let h := OnOffHelper "ns3::UdpSocketFactory" (ipv4address i)
             (to_uint16 (cbrPort + i)) in
  let h := SetAttribute "PacketSize" (UintegerValue PktLength) h in
  if (i =? attacking_index NumofNode)%Z then
    let h :=
      if (FirstNodeLoad == of_Z 1)%dbl then
        let h := SetAttribute "OnTime"
                   (RandomVariableValue (ConstantRandomVariable (of_Z 1))) h in
        SetAttribute "OffTime"
          (RandomVariableValue (ConstantRandomVariable (of_Z 0))) h
      else if (FirstNodeLoad == of_Z 0)%dbl then
        let h := SetAttribute "OnTime"
                   (RandomVariableValue (ConstantRandomVariable (of_Z 0))) h in
        SetAttribute "OffTime"
          (RandomVariableValue (ConstantRandomVariable (of_Z 1))) h
      else
        let pkt_time_first := pkt_time PktLength in
        let h := SetAttribute "OnTime"
                   (RandomVariableValue
                      (ConstantRandomVariable (stream_double pkt_time_first)))
                   h in
        SetAttribute "OffTime"
          (RandomVariableValue
             (ExponentialRandomVariable
                (stream_double (offtime_mean FirstNodeLoad pkt_time_first))))
          h in
    let h := SetAttribute "DataRate" (StringValue "6000000bps") h in
    let h := SetAttribute "StartTime" (TimeValue (of_Z 53)) h in
    SetAttribute "StopTime" (TimeValue (of_Z 153)) h
  else
    let pkt_time_rest := pkt_time PktLength in
    let h := SetAttribute "OnTime"
               (RandomVariableValue
                  (ConstantRandomVariable (stream_double pkt_time_rest))) h in
    let h := SetAttribute "OffTime"
               (RandomVariableValue
                  (ExponentialRandomVariable
                     (stream_double (offtime_mean RestNodeLoad pkt_time_rest))))
               h in
    let h := SetAttribute "DataRate" (StringValue "6000000bps") h in
    (* Seconds (3.100+i*0.01) *)
    SetAttribute "StartTime"
      (TimeValue (Finite (31 # 10) + of_Z i * Finite (1 # 100))%dbl) h.

(** Line 163: the packet sink of flow [i]; [Ipv4Address::GetAny ()] is
    0.0.0.0. *)
Definition sink (i : Z) : Helper :=
  PacketSinkHelper "ns3::UdpSocketFactory" "0.0.0.0" (to_uint16 (cbrPort + i)).

(** Lines 178-184: the one-packet echo client of flow [i].  In
    [0.001+i/1000] the quotient is taken on [size_t] before the sum. *)
Definition echoClientHelper (i : Z) : Helper :=
  let h := UdpEchoClientHelper (ipv4address i) echoPort in
  let h := SetAttribute "MaxPackets" (UintegerValue 1) h in
  let h := SetAttribute "Interval" (TimeValue (of_Z 100000)) h in
  let h := SetAttribute "PacketSize" (UintegerValue 10) h in
  SetAttribute "StartTime"
    (TimeValue (Finite (1 # 1000) + of_Z (i / 1000))%dbl) h.

(** ** The calls to the external collaborators *)

Inductive Call : Type :=
| SetSeed (seed : Z)
| SetDefault (name : string) (v : AttributeValue)
| CreateNodes (n : Z)
| SetPosition (node : Z) (x y z : double)
| Install (node : Z) (h : Helper)
| Mkdir (path : string) (result : Z)
| Sprintf (size : nat) (text : string)
| EnableAthstats (filename : string) (devices : Z)
| SimulatorStop (t : double)
| SimulatorRun
| SimulatorDestroy.

(** What a run can touch: the directories that exist, what the operating
    system lets the process create, and the calls made so far, oldest
    first. *)
Record World : Type := mkWorld {
  fs_permits : string -> bool;
  fs_dirs : list string;
  calls : list Call
}.

(** What a computation comes to: it returns a value, or it reaches an
    operation whose behaviour C++ leaves undefined.  What the program does
    from there on is not determined by its text, and the model follows it no
    further. *)
Inductive Outcome (A : Type) : Type :=
| Returned (a : A)
| Undefined.

Arguments Returned {A} a.
Arguments Undefined {A}.

(** A small monad over [World]: the state, and the outcome. *)
Definition M (A : Type) : Type := World -> Outcome A * World.

Definition ret {A} (a : A) : M A := fun w => (Returned a, w).

Definition bind {A B} (m : M A) (k : A -> M B) : M B :=
  fun w =>
    match m w with
    | (Returned a, w') => k a w'
    | (Undefined, w') => (Undefined, w')
    end.

Definition exec {A} (m : M A) (w : World) : World := snd (m w).

Definition result {A} (m : M A) (w : World) : Outcome A := fst (m w).

Declare Scope monad_scope.
Delimit Scope monad_scope with monad.
Notation "x <- m ;; k" := (bind m (fun x => k))
  (at level 61, m at next level, right associativity) : monad_scope.
Notation "m ;; k" := (bind m (fun _ => k))
  (at level 61, right associativity) : monad_scope.

Local Open Scope monad_scope.

Definition record (cs : list Call) (w : World) : World :=
  mkWorld (fs_permits w) (fs_dirs w) (calls w ++ cs).

Definition call (c : Call) : M unit :=
  fun w => (Returned tt, record [c] w).

(** [mkdir (path, mode)]: 0 when the directory is created, -1 when it
    exists already or cannot be created. *)
Definition mkdir_result (permits : string -> bool) (dirs : list string)
    (path : string) : Z :=
  if permits path && negb (existsb (String.eqb path) dirs) then 0 else (-1).

(** The directories after a [mkdir] that returned [r]. *)
Definition dirs_after (dirs : list string) (path : string) (r : Z)
  : list string :=
  if (r =? 0)%Z then path :: dirs else dirs.

Definition mkdir (path : string) : M Z :=
  fun w =>
    let r := mkdir_result (fs_permits w) (fs_dirs w) path in
    (Returned r,
     mkWorld (fs_permits w) (dirs_after (fs_dirs w) path r)
       (calls w ++ [Mkdir path r])).

(** [sprintf (buffer, ...)] into an array of [size] bytes.  The call is kept
    with the size of the array.  When the text and its terminating NUL fit
    the array, the text is what is read back from it; when they do not, the
    call writes past the end of the array and the behaviour is undefined. *)
Definition sprintf (size : nat) (text : string) : M string :=
  fun w =>
    (if fits size text then Returned text else Undefined,
     record [Sprintf size text] w).

(** [for (size_t i = 0; i < n; ++i) body] *)
Definition range (n : Z) : list Z := map Z.of_nat (seq 0 (Z.to_nat n)).

Fixpoint for_each {A} (l : list A) (body : A -> M unit) : M unit :=
  match l with
  | [] => ret tt
  | x :: l' => body x ;; for_each l' body
  end.

(** ** [experiment] and [main] *)

(** Steps 2 to 5 of the source build the office building, the channel, the
    devices and the addresses from constants only; of them the model keeps
    the position of each node. *)
Definition experiment (enableCtsRts : bool)
    (NumofNode DurationofSimulation : Z)
    (FirstNodeLoad RestNodeLoad : double) (PktLength : Z) : M unit :=
  (* 0. Enable or disable CTS/RTS *)
  let ctsThr :=
    if enableCtsRts then UintegerValue 100 else UintegerValue 10000000 in
  call (SetDefault "ns3::WifiRemoteStationManager::RtsCtsThreshold" ctsThr) ;;
  call (SetDefault "ns3::WifiNetDevice::Mtu" (UintegerValue 2296)) ;;
  call (SetDefault "ns3::ArpCache::DeadTimeout" (TimeValue (of_Z 0))) ;;
  call (SetDefault "ns3::ArpCache::AliveTimeout" (TimeValue (of_Z 120000))) ;;
  (* 1. Create nodes *)
  call (CreateNodes NumofNode) ;;
  (* 2. pos->SetPosition (Vector (43.5-8*i, 0, 1)) *)
  for_each (range NumofNode) (fun i =>
    call (SetPosition i (Finite (87 # 2) - of_Z (8 * i))%dbl (of_Z 0) (of_Z 1))) ;;
  (* 6. Install applications *)
  for_each (range (NumofNode / 2)) (fun i =>
    call (Install (i * 2)
            (onoffhelper NumofNode FirstNodeLoad RestNodeLoad PktLength i)) ;;
    call (Install (i * 2 + 1) (sink i))) ;;
  for_each (range (NumofNode / 2)) (fun i =>
    call (Install (i * 2) (echoClientHelper i))) ;;
  (* 7. Install AthstatsHelper to record the data *)
  _ <- mkdir "CDoS-6Mbps-adhoc-UDP-building" ;;
  pathname <- sprintf pathname_size
                (pathname_text FirstNodeLoad RestNodeLoad PktLength) ;;
  let foldername := pathname in
  let filename := pathname ++ "/nodes" in
  _ <- mkdir foldername ;;
  call (EnableAthstats filename NumofNode) ;;
  (* 8. Run simulation *)
  call (SimulatorStop (of_Z DurationofSimulation)) ;;
  call SimulatorRun ;;
  (* 9. Cleanup *)
  call SimulatorDestroy.

(** In [main] the literal [0.14] is the double nearest to 14/100. *)
Definition main : M Z :=
  call (SetSeed 1) ;;
  let numofnode := 6%Z in
  let durationofsimulation := 203%Z in
  let firstnodeload := of_Z 1 in
  let restnodeload := Double.round (14 # 100) in
  experiment false numofnode durationofsimulation firstnodeload restnodeload 200 ;;
  experiment false numofnode durationofsimulation firstnodeload restnodeload 1500 ;;
  ret 0%Z.

(** A world in which nothing has happened yet and every directory can be
    created. *)
Definition fresh_world : World := mkWorld (fun _ => true) [] [].


(** ** Reading a configuration back *)

Definition random_variable (name : string) (h : Helper)
  : option RandomVariable :=
  match GetAttribute name h with
  | Some (RandomVariableValue rv) => Some rv
  | _ => None
  end.

Definition time_attribute (name : string) (h : Helper) : option double :=
  match GetAttribute name h with
  | Some (TimeValue t) => Some t
  | _ => None
  end.

Definition on_time : Helper -> option RandomVariable := random_variable "OnTime".
Definition off_time : Helper -> option RandomVariable := random_variable "OffTime".
Definition start_time : Helper -> option double := time_attribute "StartTime".
Definition stop_time : Helper -> option double := time_attribute "StopTime".

(** The load flow [i] is calibrated from: [FirstNodeLoad] in the branch of
    line 131, [RestNodeLoad] in the other. *)
Definition flow_load (NumofNode : Z) (FirstNodeLoad RestNodeLoad : double)
    (i : Z) : double :=
  if (i =? attacking_index NumofNode)%Z then FirstNodeLoad else RestNodeLoad.

(** The calls a computation makes when started in world [w]. *)
Definition trace {A} (m : M A) (w : World) : list Call :=
  calls (exec m (mkWorld (fs_permits w) (fs_dirs w) [])).

Definition installs (tr : list Call) : list (Z * Helper) :=
  flat_map (fun c => match c with Install n h => [(n, h)] | _ => [] end) tr.

Definition installs_of (tid : string) (tr : list Call) : list (Z * Helper) :=
  filter (fun nh => String.eqb (type_id (snd nh)) tid) (installs tr).

(** ** Observations on the calls of a run

    The lists below spell out the calls of [experiment]; that they are its
    calls is a lemma ([experiment_run]). *)

Local Open Scope list_scope.

(** The directory of line 190. *)
Definition top_directory : string := "CDoS-6Mbps-adhoc-UDP-building".

(** The calls of steps 0 to 2 of [experiment]. *)
Definition setup_calls (enableCtsRts : bool) (NumofNode : Z) : list Call :=
  [SetDefault "ns3::WifiRemoteStationManager::RtsCtsThreshold"
     (if enableCtsRts then UintegerValue 100 else UintegerValue 10000000);
   SetDefault "ns3::WifiNetDevice::Mtu" (UintegerValue 2296);
   SetDefault "ns3::ArpCache::DeadTimeout" (TimeValue (of_Z 0));
   SetDefault "ns3::ArpCache::AliveTimeout" (TimeValue (of_Z 120000));
   CreateNodes NumofNode]
  ++ flat_map
       (fun i => [SetPosition i (Finite (87 # 2) - of_Z (8 * i))%dbl
                    (of_Z 0) (of_Z 1)])
       (range NumofNode).

(** The calls of the loop of line 123: a sender and a sink for each flow. *)
Definition flow_calls (NumofNode : Z) (FirstNodeLoad RestNodeLoad : double)
    (PktLength : Z) : list Call :=
  flat_map
    (fun i =>
       [Install (i * 2)
          (onoffhelper NumofNode FirstNodeLoad RestNodeLoad PktLength i);
        Install (i * 2 + 1) (sink i)])
    (range (NumofNode / 2)).

(** The calls of the loop of line 177: a probe for each flow. *)
Definition probe_calls (NumofNode : Z) : list Call :=
  flat_map (fun i => [Install (i * 2) (echoClientHelper i)])
    (range (NumofNode / 2)).

(** The calls of steps 7 to 9 once the path is in [pathname], given what
    the second [mkdir] returns. *)
Definition final_calls (NumofNode DurationofSimulation : Z)
    (pathname : string) (r2 : Z) : list Call :=
  [Mkdir pathname r2;
   EnableAthstats (pathname ++ "/nodes")%string NumofNode;
   SimulatorStop (of_Z DurationofSimulation);
   SimulatorRun;
   SimulatorDestroy].

(** The calls of steps 7 to 9, given what the two [mkdir] return: the run
    goes past [sprintf] only when the path fits the array. *)
Definition closing_calls (NumofNode DurationofSimulation : Z)
    (FirstNodeLoad RestNodeLoad : double) (PktLength : Z) (r1 r2 : Z)
  : list Call :=
  let pathname := pathname_text FirstNodeLoad RestNodeLoad PktLength in
  [Mkdir top_directory r1; Sprintf pathname_size pathname]
    ++ (if fits pathname_size pathname
        then final_calls NumofNode DurationofSimulation pathname r2
        else []).

(** [a < b] on the start times of two helpers. *)
Definition starts_before (h1 h2 : Helper) : bool :=
  match start_time h1, start_time h2 with
  | Some a, Some b => Double.ltb a b
  | _, _ => false
  end.


(** The seeds set, in order. *)
Definition seeds (tr : list Call) : list Z :=
  flat_map (fun c => match c with SetSeed s => [s] | _ => [] end) tr.

(** How many times the engine is run. *)
Definition simulator_runs (tr : list Call) : nat :=
  List.length
    (filter (fun c => match c with SimulatorRun => true | _ => false end) tr).

(** The contract of the external engine and traffic generator (sections 3
    and 5 of the specification): an application is active from its
    [StartTime] up to, and not including, its [StopTime] when it has one,
    and nothing happens in a run from the time given to [Simulator::Stop]
    on. *)
Definition active_at (h : Helper) (stop : double) (t : Q) : Prop :=
  match start_time h, stop with
  | Some (Finite a), Finite d =>
      (a <= t)%Q /\ (t < d)%Q /\
      match stop_time h with
      | Some (Finite b) => (t < b)%Q
      | Some _ => False
      | None => True
      end
  | _, _ => False
  end.


(** ** The building and the positions of the nodes (lines 70-88) *)

(** [Box (xMin, xMax, yMin, yMax, zMin, zMax)] *)
Record Box : Type := mkBox {
  xMin : Q; xMax : Q; yMin : Q; yMax : Q; zMin : Q; zMax : Q
}.

(** [building1->SetBoundaries (Box (0, 44, -3, 3, 0, 3))] *)
Definition building1 : Box := mkBox 0 44 (-3) 3 0 3.

(** A position within a box, the bounds included. *)
Definition inside (b : Box) (p : double * double * double) : bool :=
  match p with
  | (Finite x, Finite y, Finite z) =>
      Qle_bool (xMin b) x && Qle_bool x (xMax b)
      && Qle_bool (yMin b) y && Qle_bool y (yMax b)
      && Qle_bool (zMin b) z && Qle_bool z (zMax b)
  | _ => false
  end.

(** [Vector (43.5-8*i, 0, 1)] *)
Definition node_position (i : Z) : double * double * double :=
  ((Finite (87 # 2) - of_Z (8 * i))%dbl, of_Z 0, of_Z 1).

(** The positions a run sets, node by node. *)
Definition positions (tr : list Call) : list (Z * (double * double * double)) :=
  flat_map
    (fun c => match c with SetPosition n x y z => [(n, (x, y, z))] | _ => [] end)
    tr.

(** ** More observations *)

(** The port of the address a helper sends to, or listens on. *)
Definition port_attribute (name : string) (h : Helper) : option Z :=
  match GetAttribute name h with
  | Some (AddressValue _ (Some p)) => Some p
  | _ => None
  end.

(** The number of decimal digits of a [uint16_t]. *)
Definition digits_uint16 (n : Z) : nat :=
  if (n <? 10)%Z then 1
  else if (n <? 100)%Z then 2
  else if (n <? 1000)%Z then 3
  else if (n <? 10000)%Z then 4
  else 5.

(** ** The calibration on primitive floats

    Rocq's primitive floats are the binary64 numbers of the machine that
    checks this file, with the machine's own quotient, product and
    difference.  The two expressions of the source are written on them here,
    a second reading to set beside [pkt_time] and [offtime_mean]. *)

(** The number a primitive float is. *)
Definition of_spec_float (x : SpecFloat.spec_float) : double :=
  match x with
  | SpecFloat.S754_zero _ => Finite 0
  | SpecFloat.S754_infinity s => Infinity s
  | SpecFloat.S754_nan => NaN
  | SpecFloat.S754_finite s m e =>
      Finite (Qred ((if s then - (1) else 1) * inject_Z (Zpos m) * 2 ^ e)%Q)
  end.

Definition of_float (x : float) : double := of_spec_float (FloatOps.Prim2SF x).

(** [(double)1/6000000 * PktLength*8] *)
Definition pkt_time_float (PktLength : float) : float :=
  (1 / 6000000 * PktLength * 8)%float.

(** [1/(load*(1/pkt_time))-pkt_time] *)
Definition offtime_mean_float (load pkt_time : float) : float :=
  (1 / (load * (1 / pkt_time)) - pkt_time)%float.

(** Loads to compare the two readings at: 0.14, 0.64, 0.5, 0.3, 0.999999,
    0.01, 1, 0, 2, -1, 10^-300, 10^-313 and an infinity. *)
Definition sample_loads : list float :=
  [0x1.1eb851eb851ecp-3; 0x1.47ae147ae147bp-1; 0x1p-1; 0x1.3333333333333p-2;
   0x1.ffffde7210be9p-1; 0x1.47ae147ae147bp-7; 1; 0; 2; -1;
   0x1.56e1fc2f8f359p-997; 0x0.00004b6695433p-1022; infinity]%float.

(** Packet lengths to compare them at, each as an integer and as a float. *)
Definition sample_lengths : list (Z * float) :=
  [(0, 0%float); (1, 1%float); (37, 37%float); (200, 200%float);
   (1500, 1500%float); (13335, 13335%float); (65535, 65535%float)].

(** The same number, the same infinity, or twice not a number. *)
Definition same_double (x y : double) : bool :=
  match x, y with
  | Finite a, Finite b => Qeq_bool a b
  | Infinity s, Infinity t => Bool.eqb s t
  | NaN, NaN => true
  | _, _ => false
  end.

Definition agree (load : float) (PktLength : Z * float) : bool :=
  same_double (of_float (snd PktLength)) (of_Z (fst PktLength))
  && same_double (of_float (pkt_time_float (snd PktLength)))
       (pkt_time (fst PktLength))
  && same_double
       (of_float (offtime_mean_float load (pkt_time_float (snd PktLength))))
       (offtime_mean (of_float load) (pkt_time (fst PktLength))).

(** ** Measures of the rounding *)

(** Half the distance from 1 to the next binary64 number, 2^-53: the
    relative error of one rounding, at most. *)
Definition eps : Q := 1 # 9007199254740992.

(** Half the smallest positive binary64 number, 2^-1075: the error of one
    rounding among the subnormal numbers, at most. *)
Definition tau : Q := (2 ^ (-1075))%Q.

(** [x] is [X] within the relative error [a]. *)
Definition near (a x X : Q) : Prop := (Qabs (x - X) <= X * a)%Q.

(** ** Facts about the arithmetic *)

Lemma Qzero_bool_true (q : Q) : Qzero_bool q = true <-> (q == 0)%Q.
Proof. unfold Qzero_bool. apply Qeq_bool_iff. Qed.

Lemma Qzero_bool_false (q : Q) : Qzero_bool q = false <-> ~ (q == 0)%Q.
Proof.
  rewrite <- Qzero_bool_true. destruct (Qzero_bool q); split; intros H;
    try discriminate; try reflexivity; try (intro; discriminate).
  exfalso; apply H; reflexivity.
Qed.

Lemma Qneg_bool_true (q : Q) : Qneg_bool q = true <-> (q < 0)%Q.
Proof.
  unfold Qneg_bool. rewrite negb_true_iff. split; intros H.
  - apply Qnot_le_lt. intros Hle. apply Qle_bool_iff in Hle. congruence.
  - destruct (Qle_bool 0 q) eqn:E; [|reflexivity].
    apply Qle_bool_iff in E. exfalso. apply (Qlt_not_le _ _ H E).
Qed.

Lemma Qneg_bool_false (q : Q) : Qneg_bool q = false <-> (0 <= q)%Q.
Proof.
  unfold Qneg_bool. rewrite negb_false_iff. apply Qle_bool_iff.
Qed.

Lemma Finite_Qeq (a b : Q) : (a == b)%Q -> Finite (Qred a) = Finite (Qred b).
Proof. intros H. f_equal. apply Qred_complete, H. Qed.

Lemma Qzero_bool_Qred (q : Q) : Qzero_bool (Qred q) = Qzero_bool q.
Proof.
  destruct (Qzero_bool q) eqn:E.
  - apply Qzero_bool_true. rewrite Qred_correct. apply Qzero_bool_true, E.
  - apply Qzero_bool_false. rewrite Qred_correct. apply Qzero_bool_false, E.
Qed.

Lemma Qneg_bool_Qred (q : Q) : Qneg_bool (Qred q) = Qneg_bool q.
Proof.
  destruct (Qneg_bool q) eqn:E.
  - apply Qneg_bool_true. rewrite Qred_correct. apply Qneg_bool_true, E.
  - apply Qneg_bool_false. rewrite Qred_correct. apply Qneg_bool_false, E.
Qed.

Lemma Qzero_bool_inv (q : Q) : Qzero_bool (1 / q) = Qzero_bool q.
Proof.
  destruct (Qzero_bool q) eqn:E.
  - apply Qzero_bool_true. apply Qzero_bool_true in E. rewrite E. reflexivity.
  - apply Qzero_bool_false. apply Qzero_bool_false in E. intros H. apply E.
    setoid_replace q with (1 / (1 / q))%Q by (field; exact E).
    rewrite H. reflexivity.
Qed.

Lemma Qzero_bool_mul (a b : Q) :
  Qzero_bool (a * b) = Qzero_bool a || Qzero_bool b.
Proof.
  destruct (Qzero_bool a) eqn:Ea; simpl.
  - apply Qzero_bool_true. apply Qzero_bool_true in Ea. rewrite Ea. ring.
  - destruct (Qzero_bool b) eqn:Eb.
    + apply Qzero_bool_true. apply Qzero_bool_true in Eb. rewrite Eb. ring.
    + apply Qzero_bool_false. apply Qzero_bool_false in Ea, Eb.
      intros H. apply Qmult_integral in H. tauto.
Qed.

Lemma Qzero_bool_one : Qzero_bool (inject_Z 1) = false.
Proof. reflexivity. Qed.

Lemma Qneg_bool_one : Qneg_bool (inject_Z 1) = false.
Proof. reflexivity. Qed.

Ltac double_step :=
  cbn [Double.div Double.mul Double.add Double.sub Double.opp xorb negb
       Bool.eqb];
  rewrite ?Qzero_bool_Qred, ?Qneg_bool_Qred, ?Qzero_bool_inv, ?Qzero_bool_mul,
    ?Qzero_bool_one, ?Qneg_bool_one.

(** ** Facts about streaming a double *)

Section Streaming.

Local Open Scope Q_scope.

Lemma round_half_even_error (x : Q) :
  Qabs (inject_Z (round_half_even x) - x) <= 1 # 2.
Proof.
  unfold round_half_even.
  pose proof (Qfloor_le x) as Hl. pose proof (Qlt_floor x) as Hu.
  rewrite inject_Z_plus in Hu. change (inject_Z 1) with 1 in Hu.
  destruct (Qcompare_spec (x - inject_Z (Qfloor x)) (1 # 2)) as [E|E|E].
  - destruct (Z.even (Qfloor x)).
    + apply Qabs_Qle_condition. split; lra.
    + rewrite inject_Z_plus. change (inject_Z 1) with 1.
      apply Qabs_Qle_condition. split; lra.
  - apply Qabs_Qle_condition. split; lra.
  - rewrite inject_Z_plus. change (inject_Z 1) with 1.
    apply Qabs_Qle_condition. split; lra.
Qed.

Lemma pow10_pos (k : Z) : 0 < 10 ^ k.
Proof. apply Qpower_0_lt. reflexivity. Qed.

Lemma pow10_succ (k : Z) : 10 ^ (k + 1) == 10 ^ k * 10.
Proof. rewrite Qpower_plus by discriminate. reflexivity. Qed.

Lemma pow10_pred (k : Z) : 10 ^ (k - 1) == 10 ^ k / 10.
Proof.
  unfold Z.sub. rewrite Qpower_plus by discriminate.
  change (10 ^ (-1)) with (/ 10). reflexivity.
Qed.

Lemma decimal_normalize_spec (fuel : nat) :
  forall (q : Q) (e : Z),
    10 ^ (- Z.of_nat fuel) <= q -> q < 10 ^ (Z.of_nat fuel + 1) ->
    let (m, e') := decimal_normalize fuel q e in
    1 <= m /\ m < 10 /\ m * 10 ^ e' == q * 10 ^ e.
Proof.
  induction fuel as [|fuel IH]; intros q e Hlo Hhi.
  - cbn [decimal_normalize Z.of_nat Z.opp Z.add] in *.
    change (10 ^ 0) with 1 in Hlo. change (10 ^ 1) with 10 in Hhi.
    split; [exact Hlo | split; [exact Hhi | reflexivity]].
  - cbn [decimal_normalize].
    replace (Z.of_nat (S fuel)) with (Z.of_nat fuel + 1)%Z in * by lia.
    pose proof (pow10_pos (- Z.of_nat fuel)) as Hp1.
    pose proof (pow10_pos (Z.of_nat fuel + 1)) as Hp2.
    destruct (Qle_bool 10 q) eqn:E10.
    + apply Qle_bool_iff in E10.
      specialize (IH (q / 10) (e + 1)%Z).
      destruct (decimal_normalize fuel (q / 10) (e + 1)) as [m e'].
      rewrite pow10_succ in Hhi.
      assert (H1 : 10 ^ (- Z.of_nat fuel) <= q / 10).
      { apply Qle_trans with 1.
        - change 1 with (10 ^ 0). apply Qpower_le_compat_l; [lia | discriminate].
        - apply Qle_shift_div_l; [reflexivity | lra]. }
      assert (H2 : q / 10 < 10 ^ (Z.of_nat fuel + 1)).
      { apply Qlt_shift_div_r; [reflexivity | exact Hhi]. }
      destruct (IH H1 H2) as (Ha & Hb & Hc).
      split; [exact Ha | split; [exact Hb |]].
      rewrite Hc, pow10_succ. field.
    + destruct (Qle_bool 1 q) eqn:E1.
      * apply Qle_bool_iff in E1.
        assert (~ 10 <= q) by (intros H; apply Qle_bool_iff in H; congruence).
        split; [exact E1 | split; [lra | reflexivity]].
      * assert (Hq1 : ~ 1 <= q) by (intros H; apply Qle_bool_iff in H; congruence).
        specialize (IH (q * 10) (e - 1)%Z).
        destruct (decimal_normalize fuel (q * 10) (e - 1)) as [m e'].
        assert (H1 : 10 ^ (- Z.of_nat fuel) <= q * 10).
        { replace (- Z.of_nat fuel)%Z with (- (Z.of_nat fuel + 1) + 1)%Z by lia.
          rewrite pow10_succ. lra. }
        assert (H2 : q * 10 < 10 ^ (Z.of_nat fuel + 1)).
        { apply Qlt_le_trans with 10; [lra|].
          change 10 with (10 ^ 1) at 1.
          apply Qpower_le_compat_l; [lia | discriminate]. }
        destruct (IH H1 H2) as (Ha & Hb & Hc).
        split; [exact Ha | split; [exact Hb |]].
        rewrite Hc, pow10_pred. field.
Qed.

Lemma pow10_inject (n : Z) : (0 <= n)%Z -> 10 ^ n == inject_Z (10 ^ n).
Proof. intros H. rewrite (Zpower_Qpower 10 n H). reflexivity. Qed.

Lemma Zlt_pow10_log2 (a : Z) : (0 < a)%Z -> (a < 10 ^ (Z.log2 a + 1))%Z.
Proof.
  intros Ha. destruct (Z.log2_spec a Ha) as [_ Hu].
  pose proof (Z.log2_nonneg a) as Hl.
  apply Z.lt_le_trans with (2 ^ Z.succ (Z.log2 a))%Z; [exact Hu|].
  unfold Z.succ. apply Z.pow_le_mono_l. lia.
Qed.

Lemma decimal_fuel_enough (q : Q) :
  0 < q ->
  10 ^ (- Z.of_nat (decimal_fuel q)) <= q /\
  q < 10 ^ (Z.of_nat (decimal_fuel q) + 1).
Proof.
  intros Hq. destruct q as [a b]. unfold decimal_fuel. cbn [Qnum Qden].
  assert (Ha : (0 < a)%Z) by (unfold Qlt in Hq; simpl in Hq; lia).
  pose proof (Z.log2_nonneg a) as Hla.
  pose proof (Z.log2_nonneg (Zpos b)) as Hlb.
  pose proof (Zlt_pow10_log2 a Ha) as Hua.
  pose proof (Zlt_pow10_log2 (Zpos b) (Pos2Z.is_pos b)) as Hub.
  rewrite Z2Nat.id by lia.
  set (la := Z.log2 a) in *. set (lb := Z.log2 (Zpos b)) in *.
  split.
  - apply Qle_trans with (10 ^ (- (lb + 1))).
    + apply Qpower_le_compat_l; [lia | discriminate].
    + rewrite Qpower_opp, (pow10_inject (lb + 1)) by lia.
      assert (Hpos : (0 < 10 ^ (lb + 1))%Z) by (apply Z.pow_pos_nonneg; lia).
      destruct (10 ^ (lb + 1))%Z as [|p|p] eqn:Ep; try lia.
      unfold Qle, Qinv, inject_Z. cbn [Qnum Qden]. nia.
  - apply Qle_lt_trans with (inject_Z a).
    + unfold Qle, inject_Z. cbn [Qnum Qden]. nia.
    + apply Qlt_le_trans with (10 ^ (la + 1)).
      * rewrite (pow10_inject (la + 1)) by lia. rewrite <- Zlt_Qlt. exact Hua.
      * apply Qpower_le_compat_l; [lia | discriminate].
Qed.

Lemma round_significant_error (q : Q) :
  0 < q ->
  Qabs (round_significant 6 q - q) <= q * (5 # 1000000).
Proof.
  intros Hq. unfold round_significant.
  destruct (decimal_fuel_enough q Hq) as [Hlo Hhi].
  pose proof (decimal_normalize_spec (decimal_fuel q) q 0 Hlo Hhi) as Hn.
  destruct (decimal_normalize (decimal_fuel q) q 0) as [m e].
  destruct Hn as (Hm1 & Hm10 & Hme).
  change (10 ^ 0) with 1 in Hme. rewrite Qmult_1_r in Hme.
  change (6 - 1)%Z with 5%Z. change (10 ^ 5) with 100000.
  pose proof (round_half_even_error (m * 100000)) as Herr.
  pose proof (pow10_pos (e - 5)) as Hp.
  assert (He : 10 ^ e == 10 ^ (e - 5) * 100000).
  { replace e with ((e - 5) + 5)%Z at 1 by lia.
    rewrite Qpower_plus by discriminate. reflexivity. }
  set (p := 10 ^ (e - 5)) in *.
  set (r := inject_Z (round_half_even (m * 100000))) in *.
  assert (Hq' : q == m * 100000 * p) by (rewrite <- Hme, He; ring).
  apply Qabs_Qle_condition in Herr. destruct Herr as [Hl Hu].
  apply Qabs_Qle_condition. rewrite Hq'. split; nra.
Qed.

Lemma stream_double_positive (q : Q) :
  0 < q ->
  exists r : Q,
    stream_double (Finite q) = Finite r /\
    Qabs (r - q) <= q * (5 # 1000000).
Proof.
  intros Hq. unfold stream_double.
  assert (Hz : Qzero_bool q = false).
  { apply Qzero_bool_false. intros E. rewrite E in Hq. discriminate. }
  assert (Hn : Qneg_bool q = false) by (apply Qneg_bool_false; lra).
  rewrite Hz, Hn. eexists. split; [reflexivity|].
  rewrite Qred_correct. apply round_significant_error, Hq.
Qed.

Lemma stream_double_zero (q : Q) :
  q == 0 -> stream_double (Finite q) = Finite 0.
Proof.
  intros E. unfold stream_double.
  rewrite (proj2 (Qzero_bool_true q) E). reflexivity.
Qed.

Lemma stream_double_close (q : Q) :
  exists r : Q,
    stream_double (Finite q) = Finite r /\
    Qabs (r - q) <= Qabs q * (5 # 1000000).
Proof.
  destruct (Q_dec q 0) as [[Hneg|Hpos]|Hz].
  - assert (Hpos : 0 < - q) by lra.
    pose proof (round_significant_error (- q) Hpos) as Herr.
    exists (Qred (- round_significant 6 (- q))).
    unfold stream_double.
    rewrite (proj2 (Qzero_bool_false q)) by lra.
    rewrite (proj2 (Qneg_bool_true q) Hneg).
    split; [reflexivity|]. rewrite Qred_correct, (Qabs_neg q) by lra.
    apply Qabs_Qle_condition in Herr. destruct Herr as [Hl Hu].
    apply Qabs_Qle_condition. split; lra.
  - destruct (stream_double_positive q Hpos) as (r & Er & Herr).
    exists r. split; [exact Er|]. rewrite (Qabs_pos q) by lra. exact Herr.
  - exists 0. split; [apply stream_double_zero, Hz|].
    rewrite Hz. discriminate.
Qed.

End Streaming.

(** ** Facts about rounding to binary64 *)

Section Rounding.

Local Open Scope Q_scope.

Lemma pow2_pos (k : Z) : 0 < 2 ^ k.
Proof. apply Qpower_0_lt. reflexivity. Qed.

Lemma pow2_plus (a b : Z) : 2 ^ (a + b) == 2 ^ a * 2 ^ b.
Proof. apply Qpower_plus. discriminate. Qed.

Lemma pow2_le (a b : Z) : (a <= b)%Z -> 2 ^ a <= 2 ^ b.
Proof. intros H. apply Qpower_le_compat_l; [exact H | discriminate]. Qed.

Lemma pow2_lt_inv (a b : Z) : 2 ^ a < 2 ^ b -> (a < b)%Z.
Proof. intros H. apply (Qpower_lt_compat_l_inv 2); [exact H | reflexivity]. Qed.

Lemma pow2_le_inv (a b : Z) : 2 ^ a <= 2 ^ b -> (a <= b)%Z.
Proof. intros H. apply (Qpower_le_compat_l_inv 2); [exact H | reflexivity]. Qed.

Lemma pow2_inject (n : Z) : (0 <= n)%Z -> 2 ^ n == inject_Z (2 ^ n).
Proof. intros H. rewrite (Zpower_Qpower 2 n H). reflexivity. Qed.

Lemma Qmake_div (a : Z) (b : positive) : a # b == inject_Z a / inject_Z (Zpos b).
Proof. rewrite Qmake_Qdiv. reflexivity. Qed.

(** [ilog2 q] is the integer part of the binary logarithm of [q]. *)
Lemma ilog2_spec (q : Q) :
  0 < q -> 2 ^ ilog2 q <= q /\ q < 2 ^ (ilog2 q + 1).
Proof.
  intros Hq. unfold ilog2. destruct q as [a b]. cbn [Qnum Qden].
  assert (Ha : (0 < a)%Z) by (unfold Qlt in Hq; simpl in Hq; lia).
  destruct (Z.log2_spec a Ha) as [Hla Hua].
  destruct (Z.log2_spec (Zpos b) (Pos2Z.is_pos b)) as [Hlb Hub].
  pose proof (Z.log2_nonneg a) as Hna.
  pose proof (Z.log2_nonneg (Zpos b)) as Hnb.
  set (la := Z.log2 a) in *. set (lb := Z.log2 (Zpos b)) in *.
  assert (Eq : a # b == inject_Z a / inject_Z (Zpos b)) by apply Qmake_div.
  assert (Hb0 : 0 < inject_Z (Zpos b)) by reflexivity.
  assert (HA1 : 2 ^ la <= inject_Z a)
    by (rewrite (pow2_inject la Hna), <- Zle_Qle; exact Hla).
  assert (HA2 : inject_Z a < 2 ^ (la + 1)).
  { rewrite (pow2_inject (la + 1)) by lia. rewrite <- Zlt_Qlt. exact Hua. }
  assert (HB1 : 2 ^ lb <= inject_Z (Zpos b))
    by (rewrite (pow2_inject lb Hnb), <- Zle_Qle; exact Hlb).
  assert (HB2 : inject_Z (Zpos b) < 2 ^ (lb + 1)).
  { rewrite (pow2_inject (lb + 1)) by lia. rewrite <- Zlt_Qlt. exact Hub. }
  assert (Hhi : a # b < 2 ^ (la - lb + 1)).
  { rewrite Eq. apply Qlt_shift_div_r; [exact Hb0|].
    apply Qlt_le_trans with (2 ^ (la + 1)); [exact HA2|].
    replace (la + 1)%Z with ((la - lb + 1) + lb)%Z by lia.
    rewrite pow2_plus. apply Qmult_le_l; [apply pow2_pos | exact HB1]. }
  assert (Hlo : 2 ^ (la - lb - 1) <= a # b).
  { rewrite Eq. apply Qle_shift_div_l; [exact Hb0|].
    apply Qle_trans with (2 ^ la); [|exact HA1].
    replace la with ((la - lb - 1) + (lb + 1))%Z at 2 by lia.
    rewrite pow2_plus. apply Qmult_le_l; [apply pow2_pos|].
    apply Qlt_le_weak, HB2. }
  destruct (Qle_bool (2 ^ (la - lb)) (a # b)) eqn:E.
  - apply Qle_bool_iff in E. split; assumption.
  - assert (Hn : ~ 2 ^ (la - lb) <= a # b)
      by (intros H; apply Qle_bool_iff in H; congruence).
    split; [exact Hlo|].
    replace (la - lb - 1 + 1)%Z with (la - lb)%Z by lia.
    apply Qnot_le_lt, Hn.
Qed.

(** The binary64 number nearest to a positive [q], before overflow: it is
    within half a unit in the last place of [q]. *)
Lemma round_positive_error (q : Q) :
  0 < q ->
  Qabs (round_positive q - q) <= 2 ^ (ulp_exponent q - 1).
Proof.
  intros Hq. unfold round_positive.
  set (e := ulp_exponent q).
  pose proof (round_half_even_error (q / 2 ^ e)) as Herr.
  pose proof (pow2_pos e) as Hp.
  assert (He : 2 ^ (e - 1) == 2 ^ e * (1 # 2)).
  { unfold Z.sub. rewrite pow2_plus. reflexivity. }
  rewrite He.
  set (m := inject_Z (round_half_even (q / 2 ^ e))) in *.
  assert (Hq' : q == q / 2 ^ e * 2 ^ e) by (field; lra).
  set (x := q / 2 ^ e) in *. set (p := 2 ^ e) in *.
  apply Qabs_Qle_condition in Herr. destruct Herr as [Hl Hu].
  apply Qabs_Qle_condition. rewrite Hq'. split; nra.
Qed.

Lemma ulp_exponent_normal (q : Q) :
  2 ^ (-1022) <= q -> 2 ^ ulp_exponent q <= q * 2 ^ (-52).
Proof.
  intros Hq.
  assert (Hpos : 0 < q) by (apply Qlt_le_trans with (2 ^ (-1022)); [apply pow2_pos | exact Hq]).
  destruct (ilog2_spec q Hpos) as [Hlo Hhi].
  assert (Hk : (-1022 <= ilog2 q)%Z).
  { assert (H : (-1022 < ilog2 q + 1)%Z).
    { apply pow2_lt_inv. apply Qle_lt_trans with q; assumption. }
    lia. }
  unfold ulp_exponent. rewrite Z.max_l by lia.
  unfold Z.sub. rewrite pow2_plus.
  apply Qmult_le_r; [apply pow2_pos | exact Hlo].
Qed.

Lemma ulp_exponent_subnormal (q : Q) :
  0 < q -> q < 2 ^ (-1022) -> ulp_exponent q = (-1074)%Z.
Proof.
  intros Hpos Hq. destruct (ilog2_spec q Hpos) as [Hlo Hhi].
  assert (H : (ilog2 q < -1022)%Z).
  { apply pow2_lt_inv. apply Qle_lt_trans with q; assumption. }
  unfold ulp_exponent. apply Z.max_r. lia.
Qed.

(** Half a unit in the last place of the binary64 numbers around [q]. *)
Lemma half_ulp_bound (q : Q) :
  0 < q -> 2 ^ (ulp_exponent q - 1) <= q * eps + tau.
Proof.
  intros Hq.
  assert (Hh : forall e, 2 ^ (e - 1) == 2 ^ e * (1 # 2))
    by (intros e; unfold Z.sub; rewrite pow2_plus; reflexivity).
  destruct (Qlt_le_dec q (2 ^ (-1022))) as [Hs|Hn].
  - rewrite (ulp_exponent_subnormal q Hq Hs).
    change (2 ^ (-1074 - 1)) with tau.
    assert (0 <= q * eps) by (unfold eps; nra). lra.
  - pose proof (ulp_exponent_normal q Hn) as H. rewrite Hh.
    assert (E : 2 ^ (-52) == 2 * eps) by reflexivity. rewrite E in H.
    assert (0 < tau) by reflexivity. nra.
Qed.

Lemma half_ulp_normal (q : Q) :
  2 ^ (-1022) <= q -> 2 ^ (ulp_exponent q - 1) <= q * eps.
Proof.
  intros Hn.
  assert (Hh : forall e, 2 ^ (e - 1) == 2 ^ e * (1 # 2))
    by (intros e; unfold Z.sub; rewrite pow2_plus; reflexivity).
  pose proof (ulp_exponent_normal q Hn) as H. rewrite Hh.
  assert (E : 2 ^ (-52) == 2 * eps) by reflexivity. rewrite E in H. nra.
Qed.

Lemma round_positive_nonneg (q : Q) : 0 < q -> 0 <= round_positive q.
Proof.
  intros Hq. unfold round_positive.
  pose proof (pow2_pos (ulp_exponent q)) as Hp.
  set (e := ulp_exponent q) in *.
  pose proof (round_half_even_error (q / 2 ^ e)) as Herr.
  assert (Hx : 0 < q / 2 ^ e) by (apply Qlt_shift_div_l; lra).
  assert (Hm : (0 <= round_half_even (q / 2 ^ e))%Z).
  { assert (H : inject_Z (-1) < inject_Z (round_half_even (q / 2 ^ e))).
    { apply Qabs_Qle_condition in Herr. change (inject_Z (-1)) with (-1). lra. }
    rewrite <- Zlt_Qlt in H. lia. }
  rewrite Zle_Qle in Hm. change (inject_Z 0) with 0 in Hm.
  apply Qmult_le_0_compat; lra.
Qed.

Lemma Qabs_nonzero (q : Q) : ~ q == 0 -> 0 < Qabs q.
Proof.
  intros Hnz. apply Qabs_case; intros H; apply Qle_lt_or_eq in H;
    destruct H as [H|H]; try lra; exfalso; apply Hnz; rewrite H; reflexivity.
Qed.

(** Rounding a number of magnitude at most 2^1023 does not overflow; the
    result differs from the number by at most half a unit in the last
    place. *)
Lemma round_error_ulp (q : Q) :
  ~ q == 0 -> Qabs q <= 2 ^ 1023 ->
  exists r : Q,
    round q = Finite r /\
    Qabs (r - q) <= 2 ^ (ulp_exponent (Qabs (Qred q)) - 1) /\
    (0 < q -> 0 <= r) /\ (q < 0 -> r <= 0).
Proof.
  intros Hnz Hmax. unfold round.
  assert (Eq : Qred q == q) by apply Qred_correct.
  set (q' := Qred q) in *.
  assert (Hnz' : ~ q' == 0) by (rewrite Eq; exact Hnz).
  rewrite (proj2 (Qzero_bool_false q') Hnz').
  pose proof (Qabs_nonzero q' Hnz') as Hpos.
  pose proof (round_positive_error (Qabs q') Hpos) as Herr.
  pose proof (round_positive_nonneg (Qabs q') Hpos) as Hr0.
  pose proof (half_ulp_bound (Qabs q') Hpos) as Hhalf.
  assert (Hmax' : Qabs q' <= 2 ^ 1023) by (unfold q'; rewrite Qred_correct; exact Hmax).
  set (r := round_positive (Qabs q')) in *.
  set (h := 2 ^ (ulp_exponent (Qabs q') - 1)) in *.
  apply Qabs_Qle_condition in Herr. destruct Herr as [Hl Hu].
  assert (Hno : Qle_bool (2 ^ 1024) r = false).
  { apply not_true_is_false. intros H. apply Qle_bool_iff in H.
    change (2 ^ 1024) with (2 * 2 ^ 1023) in H.
    assert (Htau : tau <= 1) by discriminate.
    assert (Hbig : 2 <= 2 ^ 1023) by discriminate.
    unfold eps in Hhalf. nra. }
  rewrite Hno.
  destruct (Qneg_bool q') eqn:En.
  - apply Qneg_bool_true in En. exists (Qred (- r)).
    split; [reflexivity|]. rewrite Qred_correct.
    rewrite (Qabs_neg q') in Hl, Hu by lra.
    split; [|split].
    + apply Qabs_Qle_condition. split; lra.
    + intros H. lra.
    + intros _. lra.
  - apply Qneg_bool_false in En. exists (Qred r).
    split; [reflexivity|]. rewrite Qred_correct.
    rewrite (Qabs_pos q') in Hl, Hu by lra.
    split; [|split].
    + apply Qabs_Qle_condition. split; lra.
    + intros _. exact Hr0.
    + intros H. lra.
Qed.

Lemma round_any (q : Q) :
  Qabs q <= 2 ^ 1023 ->
  exists r : Q,
    round q = Finite r /\ Qabs (r - q) <= Qabs q * eps + tau /\
    (0 <= q -> 0 <= r) /\ (q <= 0 -> r <= 0).
Proof.
  intros Hmax. destruct (Qeq_dec q 0) as [Hz|Hnz].
  - exists 0. unfold round.
    assert (E : Qred q == 0) by (rewrite Qred_correct; exact Hz).
    rewrite (proj2 (Qzero_bool_true _) E). split; [reflexivity|].
    rewrite Hz. split; [discriminate|]. split; intros _; lra.
  - destruct (round_error_ulp q Hnz Hmax) as (r & Er & Herr & Hp & Hn).
    exists r. split; [exact Er|]. split.
    + apply Qle_trans with (1 := Herr).
      assert (Hpos : 0 < Qabs (Qred q))
        by (rewrite Qred_correct; apply Qabs_nonzero, Hnz).
      pose proof (half_ulp_bound _ Hpos) as H.
      rewrite Qred_correct in H at 2. exact H.
    + split; intros H; apply Qle_lt_or_eq in H; destruct H as [H|H];
        try (apply Hp; exact H); try (apply Hn; exact H);
        exfalso; apply Hnz; [symmetry|]; exact H.
Qed.

Lemma round_normal (q : Q) :
  2 ^ (-1022) <= Qabs q -> Qabs q <= 2 ^ 1023 ->
  exists r : Q,
    round q = Finite r /\ Qabs (r - q) <= Qabs q * eps /\
    (0 < q -> 0 < r) /\ (q < 0 -> r < 0).
Proof.
  intros Hmin Hmax.
  assert (Hnz : ~ q == 0).
  { intros E. rewrite E in Hmin. pose proof (pow2_pos (-1022)) as Hp.
    change (Qabs 0) with 0 in Hmin. lra. }
  destruct (round_error_ulp q Hnz Hmax) as (r & Er & Herr & Hp & Hn).
  exists r. split; [exact Er|].
  assert (Hmin' : 2 ^ (-1022) <= Qabs (Qred q)) by (rewrite Qred_correct; exact Hmin).
  pose proof (half_ulp_normal _ Hmin') as H.
  rewrite Qred_correct in H at 2.
  assert (Hb : Qabs (r - q) <= Qabs q * eps) by (apply Qle_trans with (1 := Herr); exact H).
  split; [exact Hb|].
  apply Qabs_Qle_condition in Hb. destruct Hb as [Hl Hu]. unfold eps in *.
  split; intros Hs.
  - rewrite (Qabs_pos q) in Hl, Hu by lra. nra.
  - rewrite (Qabs_neg q) in Hl, Hu by lra. nra.
Qed.

Lemma round_Qeq (q q' : Q) : q == q' -> round q = round q'.
Proof.
  intros E. unfold round. rewrite (Qred_complete q q' E). reflexivity.
Qed.

Lemma round_half_even_le (y : Q) (n : Z) :
  y <= inject_Z n -> (round_half_even y <= n)%Z.
Proof.
  intros H. unfold round_half_even.
  pose proof (Qfloor_le y) as Hl. pose proof (Qlt_floor y) as Hu.
  rewrite inject_Z_plus in Hu. change (inject_Z 1) with 1 in Hu.
  assert (Hf : (Qfloor y <= n)%Z) by (rewrite Zle_Qle; lra).
  destruct (Z.eq_dec (Qfloor y) n) as [E|E].
  - rewrite E in *.
    destruct (Qcompare_spec (y - inject_Z n) (1 # 2)) as [C|C|C]; try lra.
    lia.
  - assert (Hf' : (Qfloor y + 1 <= n)%Z) by lia.
    destruct (Qcompare_spec (y - inject_Z (Qfloor y)) (1 # 2)) as [C|C|C];
      try lia.
    destruct (Z.even (Qfloor y)); lia.
Qed.

Lemma round_half_even_ge (y : Q) (n : Z) :
  inject_Z n <= y -> (n <= round_half_even y)%Z.
Proof.
  intros H. unfold round_half_even.
  pose proof (Qlt_floor y) as Hu.
  assert (Hf : (n < Qfloor y + 1)%Z) by (rewrite Zlt_Qlt; lra).
  destruct (Qcompare_spec (y - inject_Z (Qfloor y)) (1 # 2)) as [C|C|C];
    try lia.
  destruct (Z.even (Qfloor y)); lia.
Qed.

(** Rounding never crosses a power of two. *)
Lemma round_le_pow2 (x : Q) (k : Z) :
  (-1074 <= k <= 1023)%Z -> 0 <= x -> x <= 2 ^ k ->
  exists r : Q, round x = Finite r /\ 0 <= r /\ r <= 2 ^ k.
Proof.
  intros Hk Hx0 Hxk. destruct (Qeq_dec x 0) as [Hz|Hnz].
  - exists 0. unfold round.
    assert (E : Qred x == 0) by (rewrite Qred_correct; exact Hz).
    rewrite (proj2 (Qzero_bool_true _) E). split; [reflexivity|].
    split; [lra | apply Qlt_le_weak, pow2_pos].
  - unfold round.
    assert (Eq : Qred x == x) by apply Qred_correct.
    set (q := Qred x) in *.
    assert (Hq : 0 < q).
    { rewrite Eq. apply Qle_lt_or_eq in Hx0. destruct Hx0 as [H|H]; [exact H|].
      exfalso. apply Hnz. symmetry. exact H. }
    rewrite (proj2 (Qzero_bool_false q)) by lra.
    rewrite (proj2 (Qneg_bool_false q)) by lra.
    assert (Ea' : Qabs q == q) by (apply Qabs_pos; lra).
    destruct (ilog2_spec (Qabs q)) as [Hlo Hhi]; [lra|].
    assert (Hil : (ilog2 (Qabs q) <= k)%Z).
    { apply pow2_le_inv. apply Qle_trans with (Qabs q); [exact Hlo|].
      rewrite Ea', Eq. exact Hxk. }
    pose proof (round_positive_nonneg (Qabs q)) as Hr0.
    unfold round_positive in *.
    assert (He : (ulp_exponent (Qabs q) <= k)%Z) by (unfold ulp_exponent; lia).
    set (e := ulp_exponent (Qabs q)) in *.
    pose proof (pow2_pos e) as Hp.
    assert (Hy : Qabs q / 2 ^ e <= inject_Z (2 ^ (k - e))).
    { rewrite <- (pow2_inject (k - e)) by lia.
      apply Qle_shift_div_r; [exact Hp|].
      rewrite <- pow2_plus. replace (k - e + e)%Z with k by lia.
      rewrite Ea', Eq. exact Hxk. }
    apply round_half_even_le in Hy. rewrite Zle_Qle in Hy.
    rewrite <- (pow2_inject (k - e)) in Hy by lia.
    set (m := inject_Z (round_half_even (Qabs q / 2 ^ e))) in *.
    assert (Hr : m * 2 ^ e <= 2 ^ k).
    { replace (2 ^ k) with (2 ^ (k - e + e)) by (f_equal; lia).
      rewrite pow2_plus.
      apply Qmult_le_r; assumption. }
    assert (Hno : Qle_bool (2 ^ 1024) (m * 2 ^ e) = false).
    { apply not_true_is_false. intros H. apply Qle_bool_iff in H.
      assert (H1 : 2 ^ k <= 2 ^ 1023) by (apply pow2_le; lia).
      assert (H2 : 2 ^ 1023 < 2 ^ 1024) by reflexivity. lra. }
    rewrite Hno. eexists. split; [reflexivity|]. rewrite Qred_correct.
    split; [apply Hr0; lra | exact Hr].
Qed.

Lemma round_ge_pow2 (x : Q) (k : Z) :
  (-1022 <= k)%Z -> 2 ^ k <= x ->
  round x = Infinity false \/
  exists r : Q, round x = Finite r /\ 2 ^ k <= r.
Proof.
  intros Hk Hxk. unfold round.
  assert (Eq : Qred x == x) by apply Qred_correct.
  set (q := Qred x) in *.
  pose proof (pow2_pos k) as Hpk.
  assert (Hq : 0 < q) by (rewrite Eq; lra).
  rewrite (proj2 (Qzero_bool_false q)) by lra.
  rewrite (proj2 (Qneg_bool_false q)) by lra.
  assert (Ea' : Qabs q == q) by (apply Qabs_pos; lra).
  destruct (ilog2_spec (Qabs q)) as [Hlo Hhi]; [lra|].
  assert (Hil : (k <= ilog2 (Qabs q))%Z).
  { assert (H : (k < ilog2 (Qabs q) + 1)%Z).
    { apply pow2_lt_inv. apply Qle_lt_trans with (Qabs q); [|exact Hhi].
      rewrite Ea', Eq. exact Hxk. }
    lia. }
  unfold round_positive.
  assert (He : ulp_exponent (Qabs q) = (ilog2 (Qabs q) - 52)%Z)
    by (unfold ulp_exponent; lia).
  rewrite He. set (il := ilog2 (Qabs q)) in *.
  pose proof (pow2_pos (il - 52)) as Hp.
  assert (Hy : inject_Z (2 ^ 52) <= Qabs q / 2 ^ (il - 52)).
  { rewrite <- (pow2_inject 52) by lia.
    apply Qle_shift_div_l; [exact Hp|].
    rewrite <- pow2_plus. replace (52 + (il - 52))%Z with il by lia.
    exact Hlo. }
  apply round_half_even_ge in Hy. rewrite Zle_Qle in Hy.
  rewrite <- (pow2_inject 52) in Hy by lia.
  set (m := inject_Z (round_half_even (Qabs q / 2 ^ (il - 52)))) in *.
  assert (Hr : 2 ^ k <= m * 2 ^ (il - 52)).
  { apply Qle_trans with (2 ^ il); [apply pow2_le; exact Hil|].
    replace il with (52 + (il - 52))%Z at 1 by lia. rewrite pow2_plus.
    apply Qmult_le_r; assumption. }
  destruct (Qle_bool (2 ^ 1024) (m * 2 ^ (il - 52))); [left; reflexivity|].
  right. eexists. split; [reflexivity|]. rewrite Qred_correct. exact Hr.
Qed.

Lemma near_bounds (a x X : Q) :
  near a x X <-> X - X * a <= x /\ x <= X + X * a.
Proof.
  unfold near. rewrite Qabs_Qle_condition. split; intros [H1 H2]; split; lra.
Qed.

Lemma near_scale (k a x X : Q) :
  0 < k -> near a x X -> near a (k * x) (k * X).
Proof.
  intros Hk H. apply near_bounds in H. destruct H as [H1 H2].
  apply near_bounds. split.
  - setoid_replace (k * X - k * X * a) with (k * (X - X * a)) by ring.
    apply Qmult_le_l; assumption.
  - setoid_replace (k * X + k * X * a) with (k * (X + X * a)) by ring.
    apply Qmult_le_l; assumption.
Qed.

Lemma near_weaken (a b x X : Q) :
  0 < X -> a <= b -> near a x X -> near b x X.
Proof.
  intros HX Hab H. apply near_bounds in H. destruct H as [H1 H2].
  assert (X * a <= X * b) by (apply Qmult_le_l; assumption).
  apply near_bounds. split; lra.
Qed.

Lemma near_inv (a x X : Q) :
  0 < X -> 0 <= a -> a <= 1 # 4 -> near a x X -> near (2 * a) (/ x) (/ X).
Proof.
  intros HX Ha0 Ha H. apply near_bounds in H. destruct H as [H1 H2].
  assert (Ht : X * a <= X * (1 # 4)) by (apply Qmult_le_l; assumption).
  assert (Ht0 : 0 <= X * a) by (apply Qmult_le_0_compat; lra).
  set (t := X * a) in *.
  assert (Hx : 0 < x) by lra.
  assert (HY : 0 < / X) by (apply Qinv_lt_0_compat; exact HX).
  assert (Hy : 0 < / x) by (apply Qinv_lt_0_compat; exact Hx).
  assert (E1 : X * / X == 1) by (field; lra).
  assert (E2 : x * / x == 1) by (field; lra).
  set (Y := / X) in *. set (y := / x) in *.
  (* y - Y = (X - x) * y * Y *)
  assert (E : y - Y == (X - x) * (y * Y)).
  { setoid_replace ((X - x) * (y * Y)) with (y * (X * Y) - Y * (x * y)) by ring.
    rewrite E1, E2. ring. }
  assert (Hyy : y <= 2 * Y).
  { (* x >= X/2, so 1/x <= 2/X *)
    assert (H : y * (X * Y) <= 2 * Y * (x * y)).
    { rewrite E1, E2.
      assert (rw : 2 * Y * 1 == 2 * Y * (X * Y)) by (rewrite E1; ring).
      assert (Hxy : Y * X <= 2 * (Y * x)).
      { setoid_replace (2 * (Y * x)) with (Y * (2 * x)) by ring.
        apply Qmult_le_l; [exact HY | lra]. }
      assert (E3 : Y * X == 1) by (rewrite Qmult_comm; exact E1).
      assert (Hc : y * (Y * X) <= y * (2 * (Y * x))) by (apply Qmult_le_l; assumption).
      setoid_replace (y * (2 * (Y * x))) with (2 * Y * (x * y)) in Hc by ring.
      rewrite E3, E2 in Hc. lra. }
    rewrite E1, E2 in H. lra. }
  assert (HyY : 0 < y * Y) by (apply Qmult_lt_0_compat; assumption).
  assert (Hp : y * Y * t <= 2 * (Y * a)).
  { unfold t. setoid_replace (y * Y * (X * a)) with (y * a * (X * Y)) by ring.
    rewrite E1. setoid_replace (y * a * 1) with (a * y) by ring.
    setoid_replace (2 * (Y * a)) with (a * (2 * Y)) by ring.
    destruct (Qeq_dec a 0) as [Ez|Enz].
    - rewrite Ez. lra.
    - apply Qmult_le_l; [lra | exact Hyy]. }
  apply near_bounds.
  assert (Hu : (X - x) * (y * Y) <= t * (y * Y)).
  { apply Qmult_le_r; [exact HyY | lra]. }
  assert (Hl : (- t) * (y * Y) <= (X - x) * (y * Y)).
  { apply Qmult_le_r; [exact HyY | lra]. }
  setoid_replace (Y * (2 * a)) with (2 * (Y * a)) by ring.
  split; lra.
Qed.

Lemma near_round (a x X : Q) :
  0 <= a -> a <= 1 # 4 -> 2 ^ (-1000) <= X -> X <= 2 ^ 1000 -> near a x X ->
  exists r : Q, round x = Finite r /\ near (a + 2 * eps) r X /\ 0 < r.
Proof.
  intros Ha0 Ha Hlo Hhi H. apply near_bounds in H. destruct H as [H1 H2].
  assert (HX : 0 < X) by (pose proof (pow2_pos (-1000)); lra).
  assert (Ht : X * a <= X * (1 # 4)) by (apply Qmult_le_l; assumption).
  assert (Ht0 : 0 <= X * a) by (apply Qmult_le_0_compat; lra).
  set (t := X * a) in *.
  assert (Hx : 0 < x) by lra.
  assert (Hmin : 2 ^ (-1022) <= Qabs x).
  { rewrite (Qabs_pos x) by lra.
    assert (E : 2 ^ (-1000) == 2 ^ 22 * 2 ^ (-1022)) by reflexivity.
    pose proof (pow2_pos (-1022)).
    change (2 ^ 22) with 4194304 in E. lra. }
  assert (Hmax : Qabs x <= 2 ^ 1023).
  { rewrite (Qabs_pos x) by lra.
    assert (E : 2 ^ 1023 == 2 ^ 23 * 2 ^ 1000) by reflexivity.
    pose proof (pow2_pos 1000).
    change (2 ^ 23) with 8388608 in E. lra. }
  destruct (round_normal x Hmin Hmax) as (r & Er & Herr & Hp & _).
  exists r. split; [exact Er|]. split; [|apply Hp, Hx].
  rewrite (Qabs_pos x) in Herr by lra.
  apply Qabs_Qle_condition in Herr. destruct Herr as [Hl Hu].
  apply near_bounds.
  setoid_replace (X * (a + 2 * eps)) with (t + X * (2 * eps)) by (unfold t; ring).
  unfold eps in *. split; lra.
Qed.

End Rounding.

(** ** The load calibration in binary64 *)

Section CalibrationBounds.

Local Open Scope Q_scope.

Lemma pow2_1000_small : 2 ^ (-1000) <= 1 # 1000000000.
Proof. apply Qle_bool_iff. reflexivity. Qed.

Lemma pow2_1000_big : 1000000000 <= 2 ^ 1000.
Proof. apply Qle_bool_iff. reflexivity. Qed.

Lemma pow2_1000_inv : / 2 ^ (-1000) == 2 ^ 1000.
Proof. reflexivity. Qed.

Lemma packet_seconds_bounds (PktLength : Z) :
  (0 < PktLength < 65536)%Z ->
  1 # 1000000 <= packet_seconds PktLength /\ packet_seconds PktLength <= 1 # 10.
Proof.
  intros [H1 H2]. unfold packet_seconds.
  assert (Hl : inject_Z 1 <= inject_Z PktLength) by (rewrite <- Zle_Qle; lia).
  assert (Hu : inject_Z PktLength <= inject_Z 65535) by (rewrite <- Zle_Qle; lia).
  change (inject_Z 1) with 1 in Hl. change (inject_Z 65535) with 65535 in Hu.
  split.
  - apply Qle_shift_div_l; [reflexivity | lra].
  - apply Qle_shift_div_r; [reflexivity | lra].
Qed.

(** [pkt_time] is the packet time within three roundings. *)
Lemma pkt_time_near (PktLength : Z) :
  (0 < PktLength < 65536)%Z ->
  exists on : Q,
    pkt_time PktLength = Finite on /\ 0 < on /\
    near (6 * eps) on (packet_seconds PktLength).
Proof.
  intros HP. pose proof (packet_seconds_bounds PktLength HP) as [Hpl Hpu].
  pose proof pow2_1000_small as Hlo. pose proof pow2_1000_big as Hhi.
  assert (HPq : 1 <= inject_Z PktLength <= 65535).
  { change 1 with (inject_Z 1). change 65535 with (inject_Z 65535).
    rewrite <- !Zle_Qle. lia. }
  unfold pkt_time, link_rate, of_Z, div64, mul64.
  (* 1/6000000 *)
  change (div (Finite (inject_Z 1)) (Finite (inject_Z 6000000)))
    with (Finite (Qred (inject_Z 1 / inject_Z 6000000))).
  cbn [binary64].
  rewrite (round_Qeq _ (1 # 6000000)) by (rewrite Qred_correct; reflexivity).
  destruct (near_round 0 (1 # 6000000) (1 # 6000000)) as (r1 & -> & N1 & P1);
    try lra.
  { apply near_bounds. split; lra. }
  (* * PktLength *)
  cbn [mul binary64].
  rewrite (round_Qeq _ (inject_Z PktLength * r1)) by (rewrite Qred_correct; ring).
  destruct (near_round (0 + 2 * eps) (inject_Z PktLength * r1)
              (inject_Z PktLength * (1 # 6000000)))
    as (r2 & -> & N2 & P2); try (unfold eps; lra).
  { apply near_scale; [lra | exact N1]. }
  (* * 8 *)
  cbn [mul binary64].
  rewrite (round_Qeq _ (8 * r2)) by (rewrite Qred_correct; ring).
  destruct (near_round (0 + 2 * eps + 2 * eps) (8 * r2)
              (8 * (inject_Z PktLength * (1 # 6000000))))
    as (r3 & -> & N3 & P3); try (unfold eps; lra).
  { apply near_scale; [lra | exact N2]. }
  exists r3. split; [reflexivity|]. split; [exact P3|].
  assert (E : packet_seconds PktLength
              == 8 * (inject_Z PktLength * (1 # 6000000)))
    by (unfold packet_seconds; field).
  unfold near in *. rewrite E.
  setoid_replace (6 * eps) with (0 + 2 * eps + 2 * eps + 2 * eps) by ring.
  exact N3.
Qed.

(** The mean of the off-duration for a load [u] from 2^-1000 to 1: four more
    roundings, the last one of a difference. *)
Lemma offtime_mean_near (PktLength : Z) (u on : Q) :
  (0 < PktLength < 65536)%Z -> 2 ^ (-1000) <= u -> u <= 1 ->
  0 < on -> near (6 * eps) on (packet_seconds PktLength) ->
  exists mean : Q,
    offtime_mean (Finite u) (Finite on) = Finite mean /\
    Qabs (mean - packet_seconds PktLength * (1 / u - 1))
    <= packet_seconds PktLength / u * (5 # 1000000000000000).
Proof.
  intros HP Hu0 Hu1 Hon Non.
  pose proof (packet_seconds_bounds PktLength HP) as [Hpl Hpu].
  pose proof pow2_1000_small as Hlo. pose proof pow2_1000_big as Hhi.
  pose proof (pow2_pos (-1000)) as Hlo0.
  set (pt := packet_seconds PktLength) in *.
  assert (Hupos : 0 < u) by lra.
  assert (Hptpos : 0 < pt) by lra.
  (* the exact quantities *)
  assert (HY : 10 <= / pt /\ / pt <= 1000000).
  { split.
    - apply Qle_shift_inv_l; [exact Hptpos | lra].
    - apply Qle_shift_inv_r; [exact Hptpos | lra]. }
  destruct HY as [HY1 HY2].
  assert (HZ1 : 2 ^ (-1000) <= u * / pt).
  { apply Qle_trans with (u * 1); [lra|]. apply Qmult_le_l; lra. }
  assert (HZ2 : u * / pt <= 1000000).
  { apply Qle_trans with (1 * / pt); [|lra]. apply Qmult_le_r; lra. }
  assert (HZpos : 0 < u * / pt) by lra.
  assert (ET : / (u * / pt) == pt / u) by (field; split; lra).
  assert (Hiu : 1 <= / u /\ / u <= 2 ^ 1000).
  { split.
    - apply Qle_shift_inv_l; [exact Hupos | lra].
    - rewrite <- pow2_1000_inv. apply Qle_shift_inv_r; [exact Hupos|].
      setoid_replace (/ 2 ^ (-1000) * u) with (u / 2 ^ (-1000)) by (field; lra).
      apply Qle_shift_div_l; lra. }
  destruct Hiu as [Hiu1 Hiu2].
  assert (HT : pt <= pt / u /\ pt / u <= 2 ^ 1000).
  { unfold Qdiv. split.
    - apply Qle_trans with (pt * 1); [lra|]. apply Qmult_le_l; lra.
    - apply Qle_trans with (1 * / u); [|lra]. apply Qmult_le_r; lra. }
  destruct HT as [HT1 HT2].
  set (T := pt / u) in *.
  unfold offtime_mean, of_Z, div64, mul64, sub64.
  (* 1 / pkt_time *)
  cbn [div]. rewrite (proj2 (Qzero_bool_false on)) by lra.
  cbn [binary64].
  rewrite (round_Qeq _ (/ on)) by (rewrite Qred_correct; field; lra).
  destruct (near_round (2 * (6 * eps)) (/ on) (/ pt)) as (a & -> & Na & Pa);
    try (unfold eps; lra).
  { apply near_inv; try (unfold eps; lra). exact Non. }
  (* load * ... *)
  cbn [mul binary64].
  rewrite (round_Qeq _ (u * a)) by (rewrite Qred_correct; ring).
  destruct (near_round (2 * (6 * eps) + 2 * eps) (u * a) (u * / pt))
    as (b & -> & Nb & Pb); try (unfold eps; lra).
  { apply near_scale; [lra | exact Na]. }
  (* 1 / ... *)
  cbn [div]. rewrite (proj2 (Qzero_bool_false b)) by lra.
  cbn [binary64].
  rewrite (round_Qeq _ (/ b)) by (rewrite Qred_correct; field; lra).
  destruct (near_round (2 * (2 * (6 * eps) + 2 * eps + 2 * eps)) (/ b)
              (/ (u * / pt))) as (c & -> & Nc & Pc);
    try (unfold eps; lra); try (rewrite ET; lra).
  { apply near_inv; try (unfold eps; lra). exact Nb. }
  (* ... - pkt_time *)
  unfold sub. cbn [opp add binary64].
  rewrite (round_Qeq _ (c - on)) by (rewrite !Qred_correct; ring).
  apply near_bounds in Nc. rewrite ET in Nc. fold T in Nc.
  apply near_bounds in Non.
  destruct Nc as [Nc1 Nc2]. destruct Non as [No1 No2].
  assert (Hbig : 2 ^ 1023 == 8388608 * 2 ^ 1000) by reflexivity.
  assert (HD : Qabs (c - on) <= 2 * T + T * (1 # 1000)).
  { unfold eps in *. apply Qabs_Qle_condition. split; lra. }
  destruct (round_any (c - on)) as (mean & -> & Herr & _).
  { unfold eps in *. lra. }
  exists mean. split; [reflexivity|].
  assert (Htau : tau <= 1 # 1000000000000000000000000) by (apply Qle_bool_iff; reflexivity).
  assert (E : pt * (1 / u - 1) == T - pt) by (unfold T; field; lra).
  rewrite E.
  assert (Herr' : Qabs (mean - (c - on)) <= (2 * T + T * (1 # 1000)) * eps + tau).
  { apply Qle_trans with (1 := Herr).
    assert (Qabs (c - on) * eps <= (2 * T + T * (1 # 1000)) * eps)
      by (apply Qmult_le_r; [reflexivity | exact HD]).
    lra. }
  apply Qabs_Qle_condition in Herr'. destruct Herr' as [He1 He2].
  unfold eps in *. apply Qabs_Qle_condition. split; lra.
Qed.

(** For a load below 2^-1000 the product [load * (1/pkt_time)] is tiny or
    underflows, and the mean is huge or overflows. *)
Lemma offtime_mean_tiny (PktLength : Z) (u on : Q) :
  (0 < PktLength < 65536)%Z -> 0 < u -> u < 2 ^ (-1000) ->
  0 < on -> near (6 * eps) on (packet_seconds PktLength) ->
  offtime_mean (Finite u) (Finite on) = Infinity false \/
  exists mean : Q,
    offtime_mean (Finite u) (Finite on) = Finite mean /\ 2 ^ 979 <= mean.
Proof.
  intros HP Hu0 Hu1 Hon Non.
  pose proof (packet_seconds_bounds PktLength HP) as [Hpl Hpu].
  pose proof pow2_1000_small as Hlo. pose proof pow2_1000_big as Hhi.
  set (pt := packet_seconds PktLength) in *.
  assert (Hptpos : 0 < pt) by lra.
  assert (HY : 10 <= / pt /\ / pt <= 1000000).
  { split.
    - apply Qle_shift_inv_l; [exact Hptpos | lra].
    - apply Qle_shift_inv_r; [exact Hptpos | lra]. }
  destruct HY as [HY1 HY2].
  unfold offtime_mean, of_Z, div64, mul64, sub64.
  cbn [div]. rewrite (proj2 (Qzero_bool_false on)) by lra.
  cbn [binary64].
  rewrite (round_Qeq _ (/ on)) by (rewrite Qred_correct; field; lra).
  destruct (near_round (2 * (6 * eps)) (/ on) (/ pt)) as (a & -> & Na & Pa);
    try (unfold eps; lra).
  { apply near_inv; try (unfold eps; lra). exact Non. }
  apply near_bounds in Na. destruct Na as [_ Na].
  assert (Ha : a <= 2 ^ 20).
  { change (2 ^ 20) with 1048576. unfold eps in Na. lra. }
  cbn [mul binary64].
  rewrite (round_Qeq _ (u * a)) by (rewrite Qred_correct; ring).
  assert (Hua : u * a <= 2 ^ (-980)).
  { replace (-980)%Z with (-1000 + 20)%Z by reflexivity. rewrite pow2_plus.
    apply Qle_trans with (2 ^ (-1000) * a).
    - apply Qmult_le_r; [exact Pa | lra].
    - apply Qmult_le_l; [apply pow2_pos | exact Ha]. }
  destruct (round_le_pow2 (u * a) (-980)) as (b & -> & Hb0 & Hb1);
    [lia | apply Qlt_le_weak, Qmult_lt_0_compat; assumption | exact Hua |].
  cbn [div].
  destruct (Qzero_bool b) eqn:Eb.
  - left. reflexivity.
  - apply Qzero_bool_false in Eb.
    assert (Hbpos : 0 < b).
    { apply Qle_lt_or_eq in Hb0. destruct Hb0 as [H|H]; [exact H|].
      exfalso. apply Eb. symmetry. exact H. }
    cbn [binary64].
    rewrite (round_Qeq _ (/ b)) by (rewrite Qred_correct; field; lra).
    assert (Hib : 2 ^ 980 <= / b).
    { apply Qle_shift_inv_l; [exact Hbpos|].
      apply Qle_trans with (2 ^ 980 * 2 ^ (-980));
        [|apply Qle_bool_iff; reflexivity].
      apply Qmult_le_l; [apply pow2_pos | exact Hb1]. }
    destruct (round_ge_pow2 (/ b) 980 ltac:(lia) Hib) as [-> | (c & -> & Hc)].
    + left. reflexivity.
    + unfold sub. cbn [opp add binary64].
      rewrite (round_Qeq _ (c - on)) by (rewrite !Qred_correct; ring).
      assert (HD : 2 ^ 979 <= c - on).
      { assert (E : 2 ^ 980 == 2 * 2 ^ 979) by reflexivity.
        assert (H1 : 1 <= 2 ^ 979) by (apply Qle_bool_iff; reflexivity).
        apply near_bounds in Non. unfold eps in Non. lra. }
      destruct (round_ge_pow2 (c - on) 979 ltac:(lia) HD)
        as [-> | (mean & -> & Hm)].
      * left. reflexivity.
      * right. exists mean. split; [reflexivity | exact Hm].
Qed.

Lemma duty_cycle_tolerance (u pt on mean on' mean' : Q) :
  0 < u -> u <= 1 -> 0 < pt ->
  Qabs (on - pt) <= pt * (1 # 1000000000000000) ->
  Qabs (mean - pt * (1 / u - 1)) <= pt / u * (5 # 1000000000000000) ->
  Qabs (on' - on) <= Qabs on * (5 # 1000000) ->
  Qabs (mean' - mean) <= Qabs mean * (5 # 1000000) ->
  0 < on' + mean' /\
  Qabs (on' / (on' + mean') - u) <= u * (11 # 1000000).
Proof.
  intros Hu0 Hu1 Hpt Hon Hmean Eon Emean.
  assert (ET : pt * (1 / u - 1) == pt / u - pt) by (field; lra).
  rewrite ET in Hmean.
  assert (HT : pt <= pt / u).
  { unfold Qdiv. apply Qle_trans with (pt * 1); [lra|].
    apply Qmult_le_l; [exact Hpt|].
    apply Qle_shift_inv_l; [exact Hu0 | lra]. }
  assert (EuT : u * (pt / u) == pt) by (field; lra).
  set (T := pt / u) in *.
  apply Qabs_Qle_condition in Hon. destruct Hon as [Ho1 Ho2].
  apply Qabs_Qle_condition in Hmean. destruct Hmean as [Hm1 Hm2].
  assert (Honpos : 0 < on) by lra.
  rewrite (Qabs_pos on) in Eon by lra.
  assert (Hmabs : Qabs mean <= T - pt + T * (5 # 1000000000000000)).
  { apply Qabs_Qle_condition. split; lra. }
  assert (Emean' : Qabs (mean' - mean)
                   <= (T - pt + T * (5 # 1000000000000000)) * (5 # 1000000)).
  { apply Qle_trans with (1 := Emean).
    apply Qmult_le_r; [reflexivity | exact Hmabs]. }
  clear Emean Hmabs.
  apply Qabs_Qle_condition in Eon. destruct Eon as [Eo1 Eo2].
  apply Qabs_Qle_condition in Emean'. destruct Emean' as [Em1 Em2].
  assert (Hpos : 0 < on' + mean') by lra.
  split; [exact Hpos|].
  assert (Hlo : u * (T * (1 - (51 # 10000000))) <= u * (on' + mean'))
    by (apply Qmult_le_l; [exact Hu0 | lra]).
  assert (Hhi : u * (on' + mean') <= u * (T * (1 + (51 # 10000000))))
    by (apply Qmult_le_l; [exact Hu0 | lra]).
  setoid_replace (u * (T * (1 - (51 # 10000000))))
    with (pt * (1 - (51 # 10000000))) in Hlo by (rewrite <- EuT; ring).
  setoid_replace (u * (T * (1 + (51 # 10000000))))
    with (pt * (1 + (51 # 10000000))) in Hhi by (rewrite <- EuT; ring).
  set (W := u * (on' + mean')) in *.
  apply Qabs_Qle_condition. split.
  - apply Qplus_le_l with u.
    setoid_replace (on' / (on' + mean') - u + u) with (on' / (on' + mean'))
      by ring.
    apply Qle_shift_div_l; [exact Hpos|].
    setoid_replace ((- (u * (11 # 1000000)) + u) * (on' + mean'))
      with ((1 - (11 # 1000000)) * W) by (unfold W; ring).
    lra.
  - apply Qplus_le_l with u.
    setoid_replace (on' / (on' + mean') - u + u) with (on' / (on' + mean'))
      by ring.
    apply Qle_shift_div_r; [exact Hpos|].
    setoid_replace ((u * (11 # 1000000) + u) * (on' + mean'))
      with ((1 + (11 # 1000000)) * W) by (unfold W; ring).
    lra.
Qed.

End CalibrationBounds.

(** [pkt_time] and [offtime_mean] give what the machine's binary64 gives, at
    every sample load and packet length. *)
Lemma calibration_on_primitive_floats :
  forallb (fun load => forallb (agree load) sample_lengths) sample_loads
  = true.
Proof. vm_compute. reflexivity. Qed.

(** The double nearest to 14/100 is the machine's [0.14]. *)
Lemma literal_on_primitive_floats :
  Double.round (14 # 100) = of_float 0x1.1eb851eb851ecp-3.
Proof. vm_compute. reflexivity. Qed.

Lemma attacking_index_last (NumofNode : Z) :
  (2 <= NumofNode < 65536)%Z ->
  attacking_index NumofNode = (NumofNode / 2 - 1)%Z.
Proof.
  intros H. unfold attacking_index, to_uint16.
  apply Z.mod_small.
  assert (1 <= NumofNode / 2)%Z by (apply Z.div_le_lower_bound; lia).
  assert (NumofNode / 2 < 65536)%Z by (apply Z.div_lt_upper_bound; lia).
  lia.
Qed.

(** ** What [onoffhelper] sets, branch by branch *)

Section Calibration.

Variables (NumofNode : Z) (FirstNodeLoad RestNodeLoad : double).
Variables (PktLength i : Z).

Let h := onoffhelper NumofNode FirstNodeLoad RestNodeLoad PktLength i.

Lemma onoffhelper_always_on :
  i = attacking_index NumofNode ->
  (FirstNodeLoad == of_Z 1)%dbl = true ->
  on_time h = Some (ConstantRandomVariable (of_Z 1)) /\
  off_time h = Some (ConstantRandomVariable (of_Z 0)).
Proof.
  intros Hi H1. subst h. unfold onoffhelper.
  rewrite (proj2 (Z.eqb_eq _ _) Hi), H1. split; reflexivity.
Qed.

Lemma onoffhelper_always_off :
  i = attacking_index NumofNode ->
  (FirstNodeLoad == of_Z 1)%dbl = false ->
  (FirstNodeLoad == of_Z 0)%dbl = true ->
  on_time h = Some (ConstantRandomVariable (of_Z 0)) /\
  off_time h = Some (ConstantRandomVariable (of_Z 1)).
Proof.
  intros Hi H1 H0. subst h. unfold onoffhelper.
  rewrite (proj2 (Z.eqb_eq _ _) Hi), H1, H0. split; reflexivity.
Qed.

Lemma onoffhelper_attacking_generic :
  i = attacking_index NumofNode ->
  (FirstNodeLoad == of_Z 1)%dbl = false ->
  (FirstNodeLoad == of_Z 0)%dbl = false ->
  on_time h = Some (ConstantRandomVariable
                      (stream_double (pkt_time PktLength))) /\
  off_time h = Some (ExponentialRandomVariable
                       (stream_double
                          (offtime_mean FirstNodeLoad (pkt_time PktLength)))).
Proof.
  intros Hi H1 H0. subst h. unfold onoffhelper.
  rewrite (proj2 (Z.eqb_eq _ _) Hi), H1, H0. split; reflexivity.
Qed.

Lemma onoffhelper_ordinary :
  i <> attacking_index NumofNode ->
  on_time h = Some (ConstantRandomVariable
                      (stream_double (pkt_time PktLength))) /\
  off_time h = Some (ExponentialRandomVariable
                       (stream_double
                          (offtime_mean RestNodeLoad (pkt_time PktLength)))).
Proof.
  intros Hi. subst h. unfold onoffhelper.
  rewrite (proj2 (Z.eqb_neq _ _) Hi). split; reflexivity.
Qed.

Lemma onoffhelper_attacking_window :
  i = attacking_index NumofNode ->
  start_time h = Some (of_Z 53) /\ stop_time h = Some (of_Z 153).
Proof.
  intros Hi. subst h. unfold onoffhelper.
  rewrite (proj2 (Z.eqb_eq _ _) Hi).
  destruct (FirstNodeLoad == of_Z 1)%dbl; [split; reflexivity|].
  destruct (FirstNodeLoad == of_Z 0)%dbl; split; reflexivity.
Qed.

Lemma onoffhelper_ordinary_window :
  i <> attacking_index NumofNode ->
  start_time h = Some (Finite (31 # 10) + of_Z i * Finite (1 # 100))%dbl /\
  stop_time h = None.
Proof.
  intros Hi. subst h. unfold onoffhelper.
  rewrite (proj2 (Z.eqb_neq _ _) Hi). split; reflexivity.
Qed.

End Calibration.

Lemma fractional_not_degenerate (u : Q) :
  (0 < u < 1)%Q ->
  (Finite u == of_Z 1)%dbl = false /\ (Finite u == of_Z 0)%dbl = false.
Proof.
  intros [H0 H1]. unfold Double.eqb, of_Z.
  split; apply not_true_is_false; intros E; apply Qeq_bool_iff in E;
    rewrite E in *; [apply (Qlt_irrefl _ H1) | apply (Qlt_irrefl _ H0)].
Qed.

(** C1.  A flow calibrated from a fractional load [u], 0 < u < 1, whether
    ordinary or attacking, with packets of 1 to 65535 bytes.  Its
    on-duration is the constant [pkt_time], which is
    [PktLength * 8 / 6000000] within 10^-15 of it, written into the
    descriptor with 6 significant digits.  Its off-duration is exponential,
    of mean [offtime_mean] as the descriptor carries it.  For a load from
    2^-1000 on that mean is [on * (1/u - 1)] within 5 * 10^-15 of the period
    [on / u], and with the two numbers of the descriptors
    [on / (on + mean)] is [u] within 11 millionths of it.  For a load below
    2^-1000 the mean is infinite or at least 2^978: the flow is silent, as
    such a load asks. *)
Theorem fractional_load_calibration
    (NumofNode : Z) (FirstNodeLoad RestNodeLoad : double)
    (PktLength i : Z) (u : Q) :
  (0 < PktLength < 65536)%Z ->
  flow_load NumofNode FirstNodeLoad RestNodeLoad i = Finite u ->
  (0 < u < 1)%Q ->
  let h := onoffhelper NumofNode FirstNodeLoad RestNodeLoad PktLength i in
  let pt := packet_seconds PktLength in
  exists on on' : Q,
    pkt_time PktLength = Finite on /\
    (Qabs (on - pt) <= pt * (1 # 1000000000000000))%Q /\
    on_time h = Some (ConstantRandomVariable (Finite on')) /\
    (Qabs (on' - on) <= on * (5 # 1000000))%Q /\
    off_time h
    = Some (ExponentialRandomVariable
              (stream_double (offtime_mean (Finite u) (Finite on)))) /\
    ((2 ^ (-1000) <= u)%Q ->
     exists mean mean' : Q,
       offtime_mean (Finite u) (Finite on) = Finite mean /\
       (Qabs (mean - pt * (1 / u - 1))
        <= pt / u * (5 # 1000000000000000))%Q /\
       stream_double (Finite mean) = Finite mean' /\
       (Qabs (mean' - mean) <= Qabs mean * (5 # 1000000))%Q /\
       (0 < on' + mean')%Q /\
       (Qabs (on' / (on' + mean') - u) <= u * (11 # 1000000))%Q) /\
    ((u < 2 ^ (-1000))%Q ->
     stream_double (offtime_mean (Finite u) (Finite on)) = Infinity false \/
     exists mean' : Q,
       stream_double (offtime_mean (Finite u) (Finite on)) = Finite mean' /\
       (2 ^ 978 <= mean')%Q).
Proof.
  intros HP Hload Hu h pt. subst h pt.
  pose proof (fractional_not_degenerate u Hu) as [Hn1 Hn0].
  destruct (pkt_time_near PktLength HP) as (on & Eon & Hon & Non).
  destruct (stream_double_positive on Hon) as (on' & Eon' & Bon).
  pose proof (packet_seconds_bounds PktLength HP) as [Hpl Hpu].
  assert (Hcfg :
    on_time (onoffhelper NumofNode FirstNodeLoad RestNodeLoad PktLength i)
      = Some (ConstantRandomVariable (stream_double (pkt_time PktLength))) /\
    off_time (onoffhelper NumofNode FirstNodeLoad RestNodeLoad PktLength i)
      = Some (ExponentialRandomVariable
                (stream_double
                   (offtime_mean (Finite u) (pkt_time PktLength))))).
  { unfold flow_load in Hload.
    destruct (Z.eqb_spec i (attacking_index NumofNode)) as [Hi|Hi].
    - subst FirstNodeLoad. apply onoffhelper_attacking_generic; assumption.
    - subst RestNodeLoad. apply onoffhelper_ordinary; assumption. }
  destruct Hcfg as [Hcon Hcoff]. rewrite Hcon, Hcoff, Eon, Eon'.
  assert (Bpt : (Qabs (on - packet_seconds PktLength)
                 <= packet_seconds PktLength * (1 # 1000000000000000))%Q).
  { apply (near_weaken (6 * eps)); [lra | unfold eps; lra | exact Non]. }
  exists on, on'.
  split; [reflexivity|]. split; [exact Bpt|]. split; [reflexivity|].
  split; [exact Bon|]. split; [reflexivity|]. split.
  - intros Hlo.
    destruct (offtime_mean_near PktLength u on HP Hlo ltac:(lra) Hon Non)
      as (mean & Emean & Bmean).
    destruct (stream_double_close mean) as (mean' & Emean' & Bmean').
    exists mean, mean'.
    split; [exact Emean|]. split; [exact Bmean|].
    split; [exact Emean'|]. split; [exact Bmean'|].
    apply (duty_cycle_tolerance u (packet_seconds PktLength) on mean on' mean');
      try assumption; try lra.
    rewrite (Qabs_pos on) by lra. exact Bon.
  - intros Htiny.
    destruct (offtime_mean_tiny PktLength u on HP ltac:(lra) Htiny Hon Non)
      as [-> | (mean & -> & Hmean)].
    + left. reflexivity.
    + right. destruct (stream_double_close mean) as (mean' & Emean' & Bmean').
      exists mean'. split; [exact Emean'|].
      assert (E : (2 ^ 979 == 2 * 2 ^ 978)%Q) by reflexivity.
      pose proof (pow2_pos 978) as Hp.
      rewrite (Qabs_pos mean) in Bmean' by lra.
      apply Qabs_Qle_condition in Bmean'. lra.
Qed.

(** The theorem at the default ordinary flow 0, with 1500-byte packets and
    the double nearest to 0.14 as load. *)
Lemma fractional_load_calibration_witness :
  let u := (1261007895663739 # 9007199254740992)%Q in
  let h := onoffhelper 6 (of_Z 1) (Finite u) 1500 0 in
  let pt := packet_seconds 1500 in
  exists on on' : Q,
    pkt_time 1500 = Finite on /\
    (Qabs (on - pt) <= pt * (1 # 1000000000000000))%Q /\
    on_time h = Some (ConstantRandomVariable (Finite on')) /\
    (Qabs (on' - on) <= on * (5 # 1000000))%Q /\
    off_time h
    = Some (ExponentialRandomVariable
              (stream_double (offtime_mean (Finite u) (Finite on)))) /\
    ((2 ^ (-1000) <= u)%Q ->
     exists mean mean' : Q,
       offtime_mean (Finite u) (Finite on) = Finite mean /\
       (Qabs (mean - pt * (1 / u - 1))
        <= pt / u * (5 # 1000000000000000))%Q /\
       stream_double (Finite mean) = Finite mean' /\
       (Qabs (mean' - mean) <= Qabs mean * (5 # 1000000))%Q /\
       (0 < on' + mean')%Q /\
       (Qabs (on' / (on' + mean') - u) <= u * (11 # 1000000))%Q) /\
    ((u < 2 ^ (-1000))%Q ->
     stream_double (offtime_mean (Finite u) (Finite on)) = Infinity false \/
     exists mean' : Q,
       stream_double (offtime_mean (Finite u) (Finite on)) = Finite mean' /\
       (2 ^ 978 <= mean')%Q).
Proof.
  apply (fractional_load_calibration 6 (of_Z 1)
           (Finite (1261007895663739 # 9007199254740992)) 1500 0
           (1261007895663739 # 9007199254740992)).
  - lia.
  - reflexivity.
  - split; reflexivity.
Defined.

(** The default batch: the double nearest to 0.14, and what the descriptors
    of an ordinary flow carry. *)
Lemma default_descriptors :
  Double.round (14 # 100) = Finite (1261007895663739 # 9007199254740992) /\
  stream_double (pkt_time 200) = Finite (266667 # 1000000000) /\
  stream_double (offtime_mean (Double.round (14 # 100)) (pkt_time 200))
  = Finite (16381 # 10000000) /\
  stream_double (pkt_time 1500) = Finite (1 # 500) /\
  stream_double (offtime_mean (Double.round (14 # 100)) (pkt_time 1500))
  = Finite (122857 # 10000000).
Proof. repeat split; vm_compute; reflexivity. Qed.

(** The rounding shows in a descriptor: at the load 0.64 with packets of
    13335 bytes the mean is written 0.0100013, where the exact quotient
    [(PktLength * 8 / 6000000) * (1 / 0.64 - 1)] would be written
    0.0100012; at the load 1 with packets of 37 bytes the mean is -2^-67,
    not 0. *)
Lemma rounding_in_descriptors :
  stream_double (offtime_mean (Double.round (64 # 100)) (pkt_time 13335))
  = Finite (100013 # 10000000) /\
  stream_double
    (Finite (Qred (packet_seconds 13335 * (1 / (64 # 100) - 1))))
  = Finite (25003 # 2500000) /\
  offtime_mean (of_Z 1) (pkt_time 37) = Finite (-1 # 147573952589676412928).
Proof. repeat split; vm_compute; reflexivity. Qed.

(** C2.  The attacking flow is the last one, [NumofNode/2 - 1].  A load
    equal to 1 makes it always on (on-duration constant 1, off-duration
    constant 0); a load equal to 0 makes it always off (on-duration
    constant 0, off-duration constant 1). *)
Theorem attacking_flow_degenerate_cases
    (NumofNode : Z) (FirstNodeLoad RestNodeLoad : double) (PktLength : Z) :
  (2 <= NumofNode < 65536)%Z ->
  ((FirstNodeLoad == of_Z 1)%dbl = true ->
   on_time (onoffhelper NumofNode FirstNodeLoad RestNodeLoad PktLength
              (NumofNode / 2 - 1))
     = Some (ConstantRandomVariable (of_Z 1)) /\
   off_time (onoffhelper NumofNode FirstNodeLoad RestNodeLoad PktLength
               (NumofNode / 2 - 1))
     = Some (ConstantRandomVariable (of_Z 0))) /\
  ((FirstNodeLoad == of_Z 0)%dbl = true ->
   on_time (onoffhelper NumofNode FirstNodeLoad RestNodeLoad PktLength
              (NumofNode / 2 - 1))
     = Some (ConstantRandomVariable (of_Z 0)) /\
   off_time (onoffhelper NumofNode FirstNodeLoad RestNodeLoad PktLength
               (NumofNode / 2 - 1))
     = Some (ConstantRandomVariable (of_Z 1))).
Proof.
  intros HN. pose proof (attacking_index_last NumofNode HN) as Hlast.
  split; intros H.
  - apply onoffhelper_always_on; [symmetry; exact Hlast | exact H].
  - apply onoffhelper_always_off; [symmetry; exact Hlast | | exact H].
    destruct FirstNodeLoad as [q| |]; try discriminate.
    unfold Double.eqb, of_Z in *. apply Qeq_bool_iff in H.
    apply not_true_is_false. intros E. apply Qeq_bool_iff in E.
    rewrite H in E. discriminate.
Qed.

(** The theorem at the default batch's six nodes, once with load 1 and once
    with load 0. *)
Lemma attacking_flow_degenerate_cases_witness :
  (on_time (onoffhelper 6 (of_Z 1) (Finite (14 # 100)) 200 2)
     = Some (ConstantRandomVariable (of_Z 1)) /\
   off_time (onoffhelper 6 (of_Z 1) (Finite (14 # 100)) 200 2)
     = Some (ConstantRandomVariable (of_Z 0))) /\
  (on_time (onoffhelper 6 (of_Z 0) (Finite (14 # 100)) 200 2)
     = Some (ConstantRandomVariable (of_Z 0)) /\
   off_time (onoffhelper 6 (of_Z 0) (Finite (14 # 100)) 200 2)
     = Some (ConstantRandomVariable (of_Z 1))).
Proof.
  split.
  - apply (proj1 (attacking_flow_degenerate_cases 6 (of_Z 1)
                    (Finite (14 # 100)) 200 ltac:(lia))).
    reflexivity.
  - apply (proj2 (attacking_flow_degenerate_cases 6 (of_Z 0)
                    (Finite (14 # 100)) 200 ltac:(lia))).
    reflexivity.
Defined.

(** At the load 0 the product [load * (1/pkt_time)] is 0 and the mean is
    infinite. *)
Lemma offtime_mean_at_load_0 (PktLength : Z) (q on : Q) :
  (0 < PktLength < 65536)%Z -> (q == 0)%Q ->
  (0 < on)%Q -> near (6 * eps) on (packet_seconds PktLength) ->
  offtime_mean (Finite q) (Finite on) = Infinity false.
Proof.
  intros HP Hq Hon Non.
  pose proof (packet_seconds_bounds PktLength HP) as [Hpl Hpu].
  pose proof pow2_1000_small as Hlo. pose proof pow2_1000_big as Hhi.
  set (pt := packet_seconds PktLength) in *.
  assert (Hptpos : (0 < pt)%Q) by lra.
  assert (HY : (10 <= / pt)%Q /\ (/ pt <= 1000000)%Q).
  { split.
    - apply Qle_shift_inv_l; [exact Hptpos | lra].
    - apply Qle_shift_inv_r; [exact Hptpos | lra]. }
  destruct HY as [HY1 HY2].
  unfold offtime_mean, of_Z, div64, mul64, sub64.
  cbn [Double.div]. rewrite (proj2 (Qzero_bool_false on)) by lra.
  cbn [binary64].
  rewrite (round_Qeq _ (/ on)) by (rewrite Qred_correct; field; lra).
  destruct (near_round (2 * (6 * eps)) (/ on) (/ pt)) as (a & -> & Na & Pa);
    try (unfold eps; lra).
  { apply near_inv; try (unfold eps; lra). exact Non. }
  cbn [Double.mul binary64].
  rewrite (round_Qeq _ 0) by (rewrite Qred_correct, Hq; ring).
  reflexivity.
Qed.

(** C3.  An ordinary flow whose load is exactly 0 or exactly 1 is not given
    the constant on/off pair: its on-duration is the packet time and its
    off-duration is exponential, of the mean [offtime_mean] that every other
    load gets, each as its descriptor carries it.  At the load 1 that mean
    is 0 within 5 * 10^-15 of the packet time, at the load 0 it is
    infinite, as [pkt_time * (1/load - 1)] is. *)
Theorem ordinary_flow_degenerate_load_generic
    (NumofNode : Z) (FirstNodeLoad RestNodeLoad : double) (PktLength i : Z) :
  (0 < PktLength < 65536)%Z ->
  i <> attacking_index NumofNode ->
  (RestNodeLoad == of_Z 0)%dbl = true \/ (RestNodeLoad == of_Z 1)%dbl = true ->
  let h := onoffhelper NumofNode FirstNodeLoad RestNodeLoad PktLength i in
  on_time h
  = Some (ConstantRandomVariable (stream_double (pkt_time PktLength))) /\
  off_time h
  = Some (ExponentialRandomVariable
            (stream_double (offtime_mean RestNodeLoad (pkt_time PktLength))))
  /\
  (forall c : double, off_time h <> Some (ConstantRandomVariable c)) /\
  ((RestNodeLoad == of_Z 1)%dbl = true ->
   exists mean : Q,
     offtime_mean RestNodeLoad (pkt_time PktLength) = Finite mean /\
     (Qabs mean <= packet_seconds PktLength * (5 # 1000000000000000))%Q) /\
  ((RestNodeLoad == of_Z 0)%dbl = true ->
   exists negative : bool,
     offtime_mean RestNodeLoad (pkt_time PktLength) = Infinity negative).
Proof.
  intros HP Hi _ h. subst h.
  destruct (onoffhelper_ordinary NumofNode FirstNodeLoad RestNodeLoad
              PktLength i Hi) as [Hon Hoff].
  rewrite Hon, Hoff.
  split; [reflexivity|]. split; [reflexivity|].
  split; [intros c E; discriminate E|].
  destruct (pkt_time_near PktLength HP) as (on & Eon & Honpos & Non).
  rewrite Eon.
  pose proof (packet_seconds_bounds PktLength HP) as [Hpl Hpu].
  split; intros Hload;
    (destruct RestNodeLoad as [q| |]; [|discriminate Hload..]).
  - unfold Double.eqb, of_Z in Hload. apply Qeq_bool_iff in Hload.
    change (inject_Z 1) with 1%Q in Hload.
    assert (Hlo : (2 ^ (-1000) <= q)%Q)
      by (pose proof pow2_1000_small; lra).
    destruct (offtime_mean_near PktLength q on HP Hlo ltac:(lra) Honpos Non)
      as (mean & Emean & Bmean).
    exists mean. split; [exact Emean|].
    assert (E1 : (packet_seconds PktLength * (1 / q - 1) == 0)%Q)
      by (rewrite Hload; field).
    assert (E2 : (packet_seconds PktLength / q
                  == packet_seconds PktLength)%Q)
      by (rewrite Hload; field).
    rewrite E1, E2 in Bmean.
    setoid_replace mean with (mean - 0)%Q by ring. exact Bmean.
  - unfold Double.eqb, of_Z in Hload. apply Qeq_bool_iff in Hload.
    exists false.
    apply (offtime_mean_at_load_0 PktLength q on HP Hload Honpos Non).
Qed.

(** The theorem at ordinary flow 0 of six nodes, with [RestNodeLoad] 0. *)
Lemma ordinary_flow_degenerate_load_generic_witness :
  let h := onoffhelper 6 (of_Z 1) (of_Z 0) 200 0 in
  on_time h = Some (ConstantRandomVariable (stream_double (pkt_time 200))) /\
  off_time h
  = Some (ExponentialRandomVariable
            (stream_double (offtime_mean (of_Z 0) (pkt_time 200))))
  /\
  (forall c : double, off_time h <> Some (ConstantRandomVariable c)) /\
  (((of_Z 0) == of_Z 1)%dbl = true ->
   exists mean : Q,
     offtime_mean (of_Z 0) (pkt_time 200) = Finite mean /\
     (Qabs mean <= packet_seconds 200 * (5 # 1000000000000000))%Q) /\
  (((of_Z 0) == of_Z 0)%dbl = true ->
   exists negative : bool,
     offtime_mean (of_Z 0) (pkt_time 200) = Infinity negative).
Proof.
  apply (ordinary_flow_degenerate_load_generic 6 (of_Z 1) (of_Z 0) 200 0).
  - lia.
  - discriminate.
  - left. reflexivity.
Defined.

(** What the descriptors of an ordinary flow carry at the two degenerate
    loads, for the packets of the default batch: [Mean=inf] at the load 0,
    [Mean=0] at the load 1. *)
Lemma ordinary_flow_degenerate_descriptors :
  stream_double (offtime_mean (of_Z 0) (pkt_time 200)) = Infinity false /\
  stream_double (offtime_mean (of_Z 1) (pkt_time 200)) = Finite 0 /\
  stream_double (offtime_mean (of_Z 0) (pkt_time 1500)) = Infinity false /\
  stream_double (offtime_mean (of_Z 1) (pkt_time 1500)) = Finite 0.
Proof. repeat split; vm_compute; reflexivity. Qed.

(** ** The calls of a run, in closed form *)

Lemma record_nil (w : World) : record [] w = w.
Proof. destruct w. unfold record. simpl. rewrite app_nil_r. reflexivity. Qed.

Lemma record_record (cs ds : list Call) (w : World) :
  record ds (record cs w) = record (cs ++ ds) w.
Proof. unfold record. simpl. rewrite app_assoc. reflexivity. Qed.

Lemma for_each_record {A} (f : A -> list Call) (body : A -> M unit)
    (l : list A) :
  (forall x w, body x w = (Returned tt, record (f x) w)) ->
  forall w, for_each l body w = (Returned tt, record (flat_map f l) w).
Proof.
  intros Hbody. induction l as [|x l IH]; intros w; simpl.
  - unfold ret. rewrite record_nil. reflexivity.
  - unfold bind. rewrite Hbody, IH, record_record. reflexivity.
Qed.

(** A run in closed form.  It returns when the path fits [pathname], and its
    behaviour is undefined from [sprintf] on when it does not. *)
Lemma experiment_run (enableCtsRts : bool) (NumofNode DurationofSimulation : Z)
    (FirstNodeLoad RestNodeLoad : double) (PktLength : Z) (w : World) :
  let pathname := pathname_text FirstNodeLoad RestNodeLoad PktLength in
  let r1 := mkdir_result (fs_permits w) (fs_dirs w) top_directory in
  let dirs1 := dirs_after (fs_dirs w) top_directory r1 in
  let r2 := mkdir_result (fs_permits w) dirs1 pathname in
  experiment enableCtsRts NumofNode DurationofSimulation FirstNodeLoad
    RestNodeLoad PktLength w
  = (if fits pathname_size pathname then Returned tt else Undefined,
     mkWorld (fs_permits w)
       (if fits pathname_size pathname
        then dirs_after dirs1 pathname r2 else dirs1)
       (calls w
          ++ setup_calls enableCtsRts NumofNode
          ++ flow_calls NumofNode FirstNodeLoad RestNodeLoad PktLength
          ++ probe_calls NumofNode
          ++ closing_calls NumofNode DurationofSimulation FirstNodeLoad
               RestNodeLoad PktLength r1 r2)).
Proof.
  intros pathname r1 dirs1 r2. subst pathname r1 dirs1 r2.
  destruct w as [p d c].
  unfold experiment, bind, call.
  rewrite (for_each_record
             (fun i => [SetPosition i (Finite (87 # 2) - of_Z (8 * i))%dbl
                          (of_Z 0) (of_Z 1)])) by reflexivity.
  rewrite (for_each_record
             (fun i =>
                [Install (i * 2)
                   (onoffhelper NumofNode FirstNodeLoad RestNodeLoad
                      PktLength i);
                 Install (i * 2 + 1) (sink i)]))
    by (intros; rewrite record_record; reflexivity).
  rewrite (for_each_record
             (fun i => [Install (i * 2) (echoClientHelper i)]))
    by reflexivity.
  cbn [record fs_permits fs_dirs calls].
  unfold mkdir, sprintf.
  cbn [record fs_permits fs_dirs calls].
  unfold setup_calls, flow_calls, probe_calls, closing_calls, final_calls,
    top_directory.
  destruct (fits pathname_size
              (pathname_text FirstNodeLoad RestNodeLoad PktLength));
    unfold record; cbn [fs_permits fs_dirs calls];
    repeat rewrite <- app_assoc; cbn [app]; reflexivity.
Qed.

Lemma experiment_trace (enableCtsRts : bool) (NumofNode DurationofSimulation : Z)
    (FirstNodeLoad RestNodeLoad : double) (PktLength : Z) (w : World) :
  exists r1 r2 : Z,
    trace (experiment enableCtsRts NumofNode DurationofSimulation
             FirstNodeLoad RestNodeLoad PktLength) w
    = (setup_calls enableCtsRts NumofNode
         ++ flow_calls NumofNode FirstNodeLoad RestNodeLoad PktLength
         ++ probe_calls NumofNode
         ++ closing_calls NumofNode DurationofSimulation FirstNodeLoad
              RestNodeLoad PktLength r1 r2)%list.
Proof.
  unfold trace, exec. rewrite experiment_run. cbn [snd calls fs_permits fs_dirs].
  eexists _, _. reflexivity.
Qed.

(** ** The applications a run installs *)

Lemma type_id_SetAttribute (name : string) (v : AttributeValue) (h : Helper) :
  type_id (SetAttribute name v h) = type_id h.
Proof. reflexivity. Qed.

Lemma type_id_onoffhelper (NumofNode : Z) (FirstNodeLoad RestNodeLoad : double)
    (PktLength i : Z) :
  type_id (onoffhelper NumofNode FirstNodeLoad RestNodeLoad PktLength i)
  = "ns3::OnOffApplication".
Proof.
  unfold onoffhelper.
  destruct (i =? attacking_index NumofNode)%Z; [|reflexivity].
  destruct (FirstNodeLoad == of_Z 1)%dbl; [reflexivity|].
  destruct (FirstNodeLoad == of_Z 0)%dbl; reflexivity.
Qed.

Lemma installs_app (a b : list Call) :
  installs (a ++ b) = installs a ++ installs b.
Proof. apply flat_map_app. Qed.

Lemma installs_of_app (tid : string) (a b : list Call) :
  installs_of tid (a ++ b) = installs_of tid a ++ installs_of tid b.
Proof. unfold installs_of. rewrite installs_app. apply filter_app. Qed.

Lemma installs_setup (enableCtsRts : bool) (NumofNode : Z) :
  installs (setup_calls enableCtsRts NumofNode) = [].
Proof.
  unfold setup_calls. rewrite installs_app. simpl.
  induction (range NumofNode) as [|x l IH]; simpl; [reflexivity | exact IH].
Qed.

Lemma installs_closing (NumofNode DurationofSimulation : Z)
    (FirstNodeLoad RestNodeLoad : double) (PktLength r1 r2 : Z) :
  installs (closing_calls NumofNode DurationofSimulation FirstNodeLoad
              RestNodeLoad PktLength r1 r2) = [].
Proof. unfold closing_calls. destruct (fits _ _); reflexivity. Qed.

Lemma filter_flat_map {A B} (p : B -> bool) (f : A -> list B) (l : list A) :
  filter p (flat_map f l) = flat_map (fun x => filter p (f x)) l.
Proof.
  induction l as [|x l IH]; [reflexivity|].
  cbn [flat_map]. rewrite filter_app, IH. reflexivity.
Qed.

Lemma flat_map_installs {A} (f : A -> list Call) (l : list A) :
  installs (flat_map f l) = flat_map (fun x => installs (f x)) l.
Proof.
  induction l as [|x l IH]; [reflexivity|].
  cbn [flat_map]. rewrite installs_app, IH. reflexivity.
Qed.

Lemma flat_map_singleton {A B} (f : A -> B) (l : list A) :
  flat_map (fun x => [f x]) l = map f l.
Proof. induction l as [|x l IH]; [reflexivity|]. cbn. rewrite IH. reflexivity. Qed.

Lemma flat_map_empty {A B} (l : list A) :
  flat_map (fun _ : A => @nil B) l = [].
Proof. induction l as [|x l IH]; [reflexivity | exact IH]. Qed.

Lemma flat_map_nested {A B C} (g : B -> list C) (f : A -> list B)
    (l : list A) :
  flat_map g (flat_map f l) = flat_map (fun x => flat_map g (f x)) l.
Proof.
  induction l as [|x l IH]; [reflexivity|].
  cbn [flat_map]. rewrite flat_map_app, IH. reflexivity.
Qed.

Lemma filter_flat_map_nil {A B} (p : B -> bool) (f : A -> list B)
    (l : list A) :
  (forall x, filter p (f x) = []) -> filter p (flat_map f l) = [].
Proof.
  intros H. rewrite filter_flat_map.
  rewrite (flat_map_ext _ (fun _ => []) H). apply flat_map_empty.
Qed.

Section Installed.

Variable (enableCtsRts : bool) (NumofNode DurationofSimulation : Z).
Variable (FirstNodeLoad RestNodeLoad : double) (PktLength : Z) (w : World).

Let tr := trace (experiment enableCtsRts NumofNode DurationofSimulation
                   FirstNodeLoad RestNodeLoad PktLength) w.

Lemma installs_of_run (tid : string) :
  installs_of tid tr
  = flat_map
      (fun i =>
         filter (fun nh => String.eqb (type_id (snd nh)) tid)
           [((i * 2)%Z,
             onoffhelper NumofNode FirstNodeLoad RestNodeLoad PktLength i);
            ((i * 2 + 1)%Z, sink i)])
      (range (NumofNode / 2))
    ++ flat_map
         (fun i =>
            filter (fun nh => String.eqb (type_id (snd nh)) tid)
              [((i * 2)%Z, echoClientHelper i)])
         (range (NumofNode / 2)).
Proof.
  subst tr.
  destruct (experiment_trace enableCtsRts NumofNode DurationofSimulation
              FirstNodeLoad RestNodeLoad PktLength w) as (r1 & r2 & ->).
  unfold installs_of. rewrite !installs_app, installs_setup, installs_closing.
  rewrite app_nil_r. cbn [app]. rewrite filter_app.
  unfold flow_calls, probe_calls.
  rewrite !flat_map_installs, !filter_flat_map. reflexivity.
Qed.

Lemma installed_senders :
  installs_of "ns3::OnOffApplication" tr
  = map (fun i => ((i * 2)%Z,
                   onoffhelper NumofNode FirstNodeLoad RestNodeLoad PktLength i))
      (range (NumofNode / 2)).
Proof.
  rewrite installs_of_run.
  assert (E1 : forall i,
    filter (fun nh => String.eqb (type_id (snd nh)) "ns3::OnOffApplication")
      [((i * 2)%Z,
        onoffhelper NumofNode FirstNodeLoad RestNodeLoad PktLength i);
       ((i * 2 + 1)%Z, sink i)]
    = [((i * 2)%Z,
        onoffhelper NumofNode FirstNodeLoad RestNodeLoad PktLength i)]).
  { intros i. cbn [filter snd]. rewrite type_id_onoffhelper. reflexivity. }
  assert (E2 : forall i,
    filter (fun nh => String.eqb (type_id (snd nh)) "ns3::OnOffApplication")
      [((i * 2)%Z, echoClientHelper i)] = []) by reflexivity.
  rewrite (flat_map_ext _ _ E1), (flat_map_ext _ _ E2).
  rewrite flat_map_empty, app_nil_r. apply flat_map_singleton.
Qed.

Lemma installed_receivers :
  installs_of "ns3::PacketSink" tr
  = map (fun i => ((i * 2 + 1)%Z, sink i)) (range (NumofNode / 2)).
Proof.
  rewrite installs_of_run.
  assert (E1 : forall i,
    filter (fun nh => String.eqb (type_id (snd nh)) "ns3::PacketSink")
      [((i * 2)%Z,
        onoffhelper NumofNode FirstNodeLoad RestNodeLoad PktLength i);
       ((i * 2 + 1)%Z, sink i)]
    = [((i * 2 + 1)%Z, sink i)]).
  { intros i. cbn [filter snd]. rewrite type_id_onoffhelper. reflexivity. }
  assert (E2 : forall i,
    filter (fun nh => String.eqb (type_id (snd nh)) "ns3::PacketSink")
      [((i * 2)%Z, echoClientHelper i)] = []) by reflexivity.
  rewrite (flat_map_ext _ _ E1), (flat_map_ext _ _ E2).
  rewrite flat_map_empty, app_nil_r. apply flat_map_singleton.
Qed.

Lemma installed_probes :
  installs_of "ns3::UdpEchoClient" tr
  = map (fun i => ((i * 2)%Z, echoClientHelper i)) (range (NumofNode / 2)).
Proof.
  rewrite installs_of_run.
  assert (E1 : forall i,
    filter (fun nh => String.eqb (type_id (snd nh)) "ns3::UdpEchoClient")
      [((i * 2)%Z,
        onoffhelper NumofNode FirstNodeLoad RestNodeLoad PktLength i);
       ((i * 2 + 1)%Z, sink i)]
    = []).
  { intros i. cbn [filter snd]. rewrite type_id_onoffhelper. reflexivity. }
  assert (E2 : forall i,
    filter (fun nh => String.eqb (type_id (snd nh)) "ns3::UdpEchoClient")
      [((i * 2)%Z, echoClientHelper i)] = [((i * 2)%Z, echoClientHelper i)])
    by reflexivity.
  rewrite (flat_map_ext _ _ E1), (flat_map_ext _ _ E2).
  rewrite flat_map_empty. apply flat_map_singleton.
Qed.

End Installed.

Lemma range_length (n : Z) : List.length (range n) = Z.to_nat n.
Proof. unfold range. rewrite length_map, length_seq. reflexivity. Qed.

Lemma range_nth (n k : Z) :
  (0 <= k < n)%Z -> nth_error (range n) (Z.to_nat k) = Some k.
Proof.
  intros H. unfold range.
  rewrite nth_error_map, nth_error_seq.
  destruct (Nat.ltb_spec (Z.to_nat k) (Z.to_nat n)) as [_|Hge]; [|lia].
  simpl. f_equal. lia.
Qed.

Lemma range_In (n k : Z) : In k (range n) <-> (0 <= k < n)%Z.
Proof.
  unfold range. rewrite in_map_iff. split.
  - intros (m & <- & Hm). apply in_seq in Hm. lia.
  - intros H. exists (Z.to_nat k). split; [lia|]. apply in_seq. lia.
Qed.

(** The packet time of the specification, [packetLength * 8 / linkRate],
    is the one the source computes. *)
(** The descriptors of flow [i] come from one load only: from
    [FirstNodeLoad], with the two constant cases, when [i] is the attacking
    index, and from [RestNodeLoad], without them, otherwise. *)
Lemma onoffhelper_descriptors (NumofNode : Z)
    (FirstNodeLoad RestNodeLoad : double) (PktLength i : Z) :
  let attacking := (i =? attacking_index NumofNode)%Z in
  let h := onoffhelper NumofNode FirstNodeLoad RestNodeLoad PktLength i in
  (on_time h, off_time h)
  = (if attacking then
       if (FirstNodeLoad == of_Z 1)%dbl then
         (Some (ConstantRandomVariable (of_Z 1)),
          Some (ConstantRandomVariable (of_Z 0)))
       else if (FirstNodeLoad == of_Z 0)%dbl then
         (Some (ConstantRandomVariable (of_Z 0)),
          Some (ConstantRandomVariable (of_Z 1)))
       else
         (Some (ConstantRandomVariable (stream_double (pkt_time PktLength))),
          Some (ExponentialRandomVariable
                  (stream_double
                     (offtime_mean FirstNodeLoad (pkt_time PktLength)))))
     else
       (Some (ConstantRandomVariable (stream_double (pkt_time PktLength))),
        Some (ExponentialRandomVariable
                (stream_double
                   (offtime_mean RestNodeLoad (pkt_time PktLength)))))).
Proof.
  intros attacking h. subst attacking h.
  destruct (Z.eqb_spec i (attacking_index NumofNode)) as [Hi|Hi].
  - destruct (FirstNodeLoad == of_Z 1)%dbl eqn:H1.
    + destruct (onoffhelper_always_on NumofNode FirstNodeLoad RestNodeLoad
                  PktLength i Hi H1) as [-> ->]. reflexivity.
    + destruct (FirstNodeLoad == of_Z 0)%dbl eqn:H0.
      * destruct (onoffhelper_always_off NumofNode FirstNodeLoad RestNodeLoad
                    PktLength i Hi H1 H0) as [-> ->]. reflexivity.
      * destruct (onoffhelper_attacking_generic NumofNode FirstNodeLoad
                    RestNodeLoad PktLength i Hi H1 H0) as [-> ->].
        reflexivity.
  - destruct (onoffhelper_ordinary NumofNode FirstNodeLoad RestNodeLoad
                PktLength i Hi) as [-> ->]. reflexivity.
Qed.

(** The other load does not enter the helper of a flow at all. *)
Lemma onoffhelper_other_load (NumofNode : Z)
    (FirstNodeLoad RestNodeLoad other : double) (PktLength i : Z) :
  (if (i =? attacking_index NumofNode)%Z
   then onoffhelper NumofNode FirstNodeLoad other PktLength i
   else onoffhelper NumofNode other RestNodeLoad PktLength i)
  = onoffhelper NumofNode FirstNodeLoad RestNodeLoad PktLength i.
Proof.
  unfold onoffhelper.
  destruct (i =? attacking_index NumofNode)%Z; reflexivity.
Qed.

(** C6.  A run over an even number [NumofNode] of nodes installs
    [NumofNode/2] on/off senders and as many sinks; flow [k] has its sender
    on node [2k] and its sink on node [2k+1]; the flow of index
    [NumofNode/2 - 1], and no other, is calibrated from [FirstNodeLoad],
    with the constant pairs at the loads 1 and 0, and has a stop time; the
    others are calibrated from [RestNodeLoad], without such cases.  The
    load a flow is not calibrated from does not enter its helper. *)
Theorem flows_of_a_run (enableCtsRts : bool)
    (NumofNode DurationofSimulation : Z)
    (FirstNodeLoad RestNodeLoad : double) (PktLength : Z) (w : World) :
  (0 <= NumofNode < 65536)%Z -> Z.even NumofNode = true ->
  let tr := trace (experiment enableCtsRts NumofNode DurationofSimulation
                     FirstNodeLoad RestNodeLoad PktLength) w in
  let senders := installs_of "ns3::OnOffApplication" tr in
  let receivers := installs_of "ns3::PacketSink" tr in
  Z.of_nat (List.length senders) = (NumofNode / 2)%Z /\
  Z.of_nat (List.length receivers) = (NumofNode / 2)%Z /\
  forall k : Z, (0 <= k < NumofNode / 2)%Z ->
    let h := onoffhelper NumofNode FirstNodeLoad RestNodeLoad PktLength k in
    let attacking := (k =? NumofNode / 2 - 1)%Z in
    nth_error senders (Z.to_nat k) = Some ((2 * k)%Z, h) /\
    nth_error receivers (Z.to_nat k) = Some ((2 * k + 1)%Z, sink k) /\
    (on_time h, off_time h)
    = (if attacking then
         if (FirstNodeLoad == of_Z 1)%dbl then
           (Some (ConstantRandomVariable (of_Z 1)),
            Some (ConstantRandomVariable (of_Z 0)))
         else if (FirstNodeLoad == of_Z 0)%dbl then
           (Some (ConstantRandomVariable (of_Z 0)),
            Some (ConstantRandomVariable (of_Z 1)))
         else
           (Some (ConstantRandomVariable
                    (stream_double (pkt_time PktLength))),
            Some (ExponentialRandomVariable
                    (stream_double
                       (offtime_mean FirstNodeLoad (pkt_time PktLength)))))
       else
         (Some (ConstantRandomVariable (stream_double (pkt_time PktLength))),
          Some (ExponentialRandomVariable
                  (stream_double
                     (offtime_mean RestNodeLoad (pkt_time PktLength)))))) /\
    (forall other : double,
       (if attacking
        then onoffhelper NumofNode FirstNodeLoad other PktLength k
        else onoffhelper NumofNode other RestNodeLoad PktLength k) = h) /\
    stop_time h = (if attacking then Some (of_Z 153) else None).
Proof.
  intros HN _ tr senders receivers. subst tr senders receivers.
  rewrite installed_senders, installed_receivers, !length_map, range_length.
  assert (Hhalf : (0 <= NumofNode / 2)%Z) by (apply Z.div_pos; lia).
  split; [lia|]. split; [lia|].
  intros k Hk h attacking. subst h attacking.
  assert (HN2 : (2 <= NumofNode < 65536)%Z).
  { split; [|lia]. destruct (Z.ltb_spec NumofNode 2) as [Hlt|]; [|lia].
    rewrite Z.div_small in Hk by lia. lia. }
  rewrite <- (attacking_index_last _ HN2).
  split; [|split; [|split; [|split]]].
  - rewrite nth_error_map, (range_nth _ _ Hk). cbn [option_map].
    do 2 f_equal. lia.
  - rewrite nth_error_map, (range_nth _ _ Hk). cbn [option_map].
    do 2 f_equal. lia.
  - apply onoffhelper_descriptors.
  - intros other. apply onoffhelper_other_load.
  - destruct (Z.eqb_spec k (attacking_index NumofNode)) as [Ha|Ha].
    + apply (proj2 (onoffhelper_attacking_window NumofNode FirstNodeLoad
                      RestNodeLoad PktLength k Ha)).
    + apply (proj2 (onoffhelper_ordinary_window NumofNode FirstNodeLoad
                      RestNodeLoad PktLength k Ha)).
Qed.

(** The theorem at the default six nodes. *)
Lemma flows_of_a_run_witness :
  let tr := trace (experiment false 6 203 (of_Z 1) (Finite (14 # 100)) 200)
              fresh_world in
  let senders := installs_of "ns3::OnOffApplication" tr in
  let receivers := installs_of "ns3::PacketSink" tr in
  Z.of_nat (List.length senders) = (6 / 2)%Z /\
  Z.of_nat (List.length receivers) = (6 / 2)%Z /\
  forall k : Z, (0 <= k < 6 / 2)%Z ->
    let h := onoffhelper 6 (of_Z 1) (Finite (14 # 100)) 200 k in
    let attacking := (k =? 6 / 2 - 1)%Z in
    nth_error senders (Z.to_nat k) = Some ((2 * k)%Z, h) /\
    nth_error receivers (Z.to_nat k) = Some ((2 * k + 1)%Z, sink k) /\
    (on_time h, off_time h)
    = (if attacking then
         if (of_Z 1 == of_Z 1)%dbl then
           (Some (ConstantRandomVariable (of_Z 1)),
            Some (ConstantRandomVariable (of_Z 0)))
         else if (of_Z 1 == of_Z 0)%dbl then
           (Some (ConstantRandomVariable (of_Z 0)),
            Some (ConstantRandomVariable (of_Z 1)))
         else
           (Some (ConstantRandomVariable (stream_double (pkt_time 200))),
            Some (ExponentialRandomVariable
                    (stream_double (offtime_mean (of_Z 1) (pkt_time 200)))))
       else
         (Some (ConstantRandomVariable (stream_double (pkt_time 200))),
          Some (ExponentialRandomVariable
                  (stream_double
                     (offtime_mean (Finite (14 # 100)) (pkt_time 200)))))) /\
    (forall other : double,
       (if attacking
        then onoffhelper 6 (of_Z 1) other 200 k
        else onoffhelper 6 other (Finite (14 # 100)) 200 k) = h) /\
    stop_time h = (if attacking then Some (of_Z 153) else None).
Proof.
  apply (flows_of_a_run false 6 203 (of_Z 1) (Finite (14 # 100)) 200
           fresh_world).
  - lia.
  - reflexivity.
Defined.

(** Six nodes: three flows, on nodes 0-1, 2-3 and 4-5; flows 0 and 1 take
    [RestNodeLoad], flow 2 takes [FirstNodeLoad]. *)
Lemma six_nodes_three_flows (enableCtsRts : bool) (DurationofSimulation : Z)
    (FirstNodeLoad RestNodeLoad : double) (PktLength : Z) (w : World) :
  let tr := trace (experiment enableCtsRts 6 DurationofSimulation
                     FirstNodeLoad RestNodeLoad PktLength) w in
  map fst (installs_of "ns3::OnOffApplication" tr) = [0; 2; 4]%Z /\
  map fst (installs_of "ns3::PacketSink" tr) = [1; 3; 5]%Z /\
  map (flow_load 6 FirstNodeLoad RestNodeLoad) (range (6 / 2))
  = [RestNodeLoad; RestNodeLoad; FirstNodeLoad].
Proof.
  intros tr. subst tr.
  rewrite installed_senders, installed_receivers, !map_map.
  repeat split.
Qed.

(** ** Start times *)

Lemma ltb_Finite (a b : Q) :
  Double.ltb (Finite (Qred a)) (Finite (Qred b)) = true <-> (a < b)%Q.
Proof.
  unfold Double.ltb. rewrite negb_true_iff. split; intros H.
  - apply Qnot_le_lt. intros Hle. rewrite <- (Qred_correct a) in Hle.
    rewrite <- (Qred_correct b) in Hle. apply Qle_bool_iff in Hle. congruence.
  - apply not_true_is_false. intros Hle. apply Qle_bool_iff in Hle.
    rewrite !Qred_correct in Hle. apply (Qlt_not_le _ _ H Hle).
Qed.

Lemma ordinary_start_value (i : Z) :
  (Finite (31 # 10) + of_Z i * Finite (1 # 100))%dbl
  = Finite (Qred ((31 # 10) + inject_Z i * (1 # 100))).
Proof.
  unfold of_Z. double_step. apply Finite_Qeq. rewrite !Qred_correct.
  reflexivity.
Qed.

Section StartTimes.

Variables (NumofNode : Z) (FirstNodeLoad RestNodeLoad : double).
Variable (PktLength : Z).

Let h := onoffhelper NumofNode FirstNodeLoad RestNodeLoad PktLength.

Lemma ordinary_starts_increase (j k : Z) :
  j <> attacking_index NumofNode -> k <> attacking_index NumofNode ->
  (j < k)%Z -> starts_before (h j) (h k) = true.
Proof.
  intros Hj Hk Hlt. unfold starts_before. subst h.
  rewrite (proj1 (onoffhelper_ordinary_window _ _ _ _ _ Hj)).
  rewrite (proj1 (onoffhelper_ordinary_window _ _ _ _ _ Hk)).
  rewrite !ordinary_start_value. apply ltb_Finite.
  rewrite Zlt_Qlt in Hlt. lra.
Qed.

Lemma ordinary_before_attacking (k a : Z) :
  k <> attacking_index NumofNode -> a = attacking_index NumofNode ->
  starts_before (h k) (h a) = true <-> (k < 4990)%Z.
Proof.
  intros Hk Ha. unfold starts_before. subst h.
  rewrite (proj1 (onoffhelper_ordinary_window _ _ _ _ _ Hk)).
  rewrite (proj1 (onoffhelper_attacking_window _ _ _ _ _ Ha)).
  rewrite ordinary_start_value.
  change (of_Z 53) with (Finite (Qred 53)).
  rewrite ltb_Finite, (Zlt_Qlt k 4990).
  change (inject_Z 4990) with 4990%Q. split; intros H; lra.
Qed.

End StartTimes.

(** C7, as the code has it.  The start times [3.1 + 0.01 k] of the ordinary
    flows increase strictly with the flow index.  An ordinary flow [k]
    starts before the attacking flow (at 53) exactly when [k < 4990]; all
    ordinary flows do so when [NumofNode <= 9983]. *)
Theorem ordinary_start_order
    (NumofNode : Z) (FirstNodeLoad RestNodeLoad : double) (PktLength : Z) :
  (2 <= NumofNode < 65536)%Z ->
  let h := onoffhelper NumofNode FirstNodeLoad RestNodeLoad PktLength in
  let last := (NumofNode / 2 - 1)%Z in
  (forall j k : Z, (0 <= j < k)%Z -> (k < last)%Z ->
     starts_before (h j) (h k) = true) /\
  (forall k : Z, (0 <= k < last)%Z ->
     (starts_before (h k) (h last) = true <-> (k < 4990)%Z)) /\
  ((NumofNode <= 9983)%Z ->
   forall k : Z, (0 <= k < last)%Z -> starts_before (h k) (h last) = true).
Proof.
  intros HN h last. subst h last.
  pose proof (attacking_index_last NumofNode HN) as Hlast.
  split; [|split].
  - intros j k Hjk Hk. apply ordinary_starts_increase; lia.
  - intros k Hk. apply ordinary_before_attacking; lia.
  - intros Hsmall k Hk. apply ordinary_before_attacking; try lia.
    assert (NumofNode / 2 < 4992)%Z by (apply Z.div_lt_upper_bound; lia).
    lia.
Qed.

(** The theorem at the default six nodes: flow 0 starts before flow 1, and
    both before the attacking flow 2. *)
Lemma ordinary_start_order_witness :
  let h := onoffhelper 6 (of_Z 1) (Finite (14 # 100)) 200 in
  starts_before (h 0%Z) (h 1%Z) = true /\
  (starts_before (h 1%Z) (h 2%Z) = true <-> (1 < 4990)%Z) /\
  starts_before (h 0%Z) (h 2%Z) = true.
Proof.
  pose proof (ordinary_start_order 6 (of_Z 1) (Finite (14 # 100)) 200
                ltac:(lia)) as (Hinc & Hiff & Hall).
  split; [|split].
  - apply (Hinc 0%Z 1%Z); [lia | reflexivity].
  - apply (Hiff 1%Z). split; [lia | reflexivity].
  - apply (Hall ltac:(lia) 0%Z). split; [lia | reflexivity].
Defined.

(** C7 as stated fails for a large number of nodes: with 10000 nodes the
    ordinary flow 4995 starts at 53.05, not before the attacking flow 4999,
    which starts at 53. *)
Lemma ordinary_start_after_attacking_start :
  let h := onoffhelper 10000 (of_Z 1) (Finite (14 # 100)) 200 in
  (0 <= 4995 < 10000 / 2 - 1)%Z /\
  4995%Z <> attacking_index 10000 /\
  attacking_index 10000 = (10000 / 2 - 1)%Z /\
  start_time (h 4995%Z) = Some (Finite (1061 # 20)) /\
  start_time (h (10000 / 2 - 1)%Z) = Some (Finite 53) /\
  starts_before (h 4995%Z) (h (10000 / 2 - 1)%Z) = false.
Proof.
  cbv zeta. split; [|split; [|split; [|split; [|split]]]].
  - split; [discriminate | reflexivity].
  - discriminate.
  - reflexivity.
  - reflexivity.
  - reflexivity.
  - reflexivity.
Qed.

(** ** The reachability probes *)

Lemma probe_start_value (i : Z) :
  (0 <= i < 1000)%Z ->
  start_time (echoClientHelper i) = Some (Finite (1 # 1000)).
Proof.
  intros H. unfold echoClientHelper. rewrite (Z.div_small i 1000 H).
  reflexivity.
Qed.

(** C4, on the code.  In the default run the three probes, of flows 0, 1
    and 2, all start at 0.001: [i/1000] is an integer quotient and is 0 for
    every flow index below 1000. *)
Theorem probe_start_times_coincide :
  map (fun nh => (fst nh, start_time (snd nh)))
    (installs_of "ns3::UdpEchoClient"
       (trace (experiment false 6 203 (of_Z 1) (Finite (14 # 100)) 200)
          fresh_world))
  = [(0%Z, Some (Finite (1 # 1000)));
     (2%Z, Some (Finite (1 # 1000)));
     (4%Z, Some (Finite (1 # 1000)))].
Proof. rewrite installed_probes. reflexivity. Qed.

(** With more than 4000 flows a probe is not even earlier than the first
    real traffic: the probe of flow 4000 starts at 4.001, flow 0 at 3.1. *)
Lemma late_probe :
  start_time (echoClientHelper 4000) = Some (Finite (4001 # 1000)) /\
  start_time (onoffhelper 10000 (of_Z 1) (Finite (14 # 100)) 200 0)
  = Some (Finite (31 # 10)).
Proof. split; reflexivity. Qed.

(** ** Validation and failure *)





(** ** The batch *)

(** C8, on the code.  [main] sets the seed 1, once and before anything else,
    and starts [experiment] with packet length 200, without RTS/CTS, with 6
    nodes, for 203 seconds, with the loads 1 and 0.14.  That run installs
    its flows and probes and formats its path, of 53 characters, into the 50
    bytes of [pathname]: from there on the behaviour of [main] is undefined.
    No call of [Simulator::Run] comes before that point. *)
Theorem main_batch (w : World) :
  let restnodeload := Double.round (14 # 100) in
  let pathname := "./CDoS-6Mbps-adhoc-UDP-building/u_0=1.00rho=0.14T=200" in
  pathname_text (of_Z 1) restnodeload 200 = pathname /\
  String.length pathname = 53%nat /\
  fits pathname_size pathname = false /\
  result main w = Undefined /\
  (exists r1 : Z,
     trace main w
     = SetSeed 1
         :: setup_calls false 6
         ++ flow_calls 6 (of_Z 1) restnodeload 200
         ++ probe_calls 6
         ++ [Mkdir top_directory r1; Sprintf pathname_size pathname]) /\
  seeds (trace main w) = [1%Z] /\
  simulator_runs (trace main w) = 0%nat.
Proof.
  intros restnodeload pathname.
  assert (Epath : pathname_text (of_Z 1) restnodeload 200 = pathname)
    by (vm_compute; reflexivity).
  assert (Hfits : fits pathname_size pathname = false) by reflexivity.
  assert (Hmain : forall w0,
    main w0
    = (Undefined,
       exec (experiment false 6 203 (of_Z 1) restnodeload 200)
         (exec (call (SetSeed 1)) w0))).
  { intros w0. unfold main, bind, exec. cbn [call snd].
    fold restnodeload.
    rewrite experiment_run. rewrite Epath, Hfits. reflexivity. }
  assert (Htrace : exists r1 : Z,
     trace main w
     = SetSeed 1
         :: setup_calls false 6
         ++ flow_calls 6 (of_Z 1) restnodeload 200
         ++ probe_calls 6
         ++ [Mkdir top_directory r1; Sprintf pathname_size pathname]).
  { unfold trace. unfold exec at 1. rewrite Hmain. cbn [snd].
    unfold exec. cbn [call snd record fs_permits fs_dirs calls app].
    rewrite experiment_run. cbn [snd fs_permits fs_dirs calls app].
    unfold closing_calls. rewrite Epath, Hfits.
    eexists. rewrite app_nil_r. reflexivity. }
  split; [exact Epath|]. split; [reflexivity|]. split; [exact Hfits|].
  split; [unfold result; rewrite Hmain; reflexivity|].
  split; [exact Htrace|].
  destruct Htrace as (r1 & ->).
  assert (Hs : forall l : list Z,
            seeds (flat_map (fun i =>
                     [SetPosition i (Finite (87 # 2) - of_Z (8 * i))%dbl
                        (of_Z 0) (of_Z 1)]) l) = [])
    by (induction l as [|x l IH]; [reflexivity | exact IH]).
  split.
  - unfold seeds, setup_calls, flow_calls, probe_calls.
    cbn [flat_map app]. rewrite !flat_map_app. fold seeds.
    rewrite Hs. reflexivity.
  - unfold simulator_runs, setup_calls, flow_calls, probe_calls.
    cbn [filter app]. rewrite !filter_app, !filter_flat_map_nil by reflexivity.
    reflexivity.
Qed.

(** ** The output path *)

Lemma string_length_append (a b : string) :
  String.length (a ++ b)%string = (String.length a + String.length b)%nat.
Proof. induction a as [|c a IH]; simpl; [reflexivity | rewrite IH; reflexivity]. Qed.

Lemma string_of_Z_length (z : Z) : (1 <= String.length (string_of_Z z))%nat.
Proof.
  unfold string_of_Z, NilZero.string_of_int.
  destruct (Z.to_int z) as [d|d].
  - unfold NilZero.string_of_uint. destruct d; simpl; lia.
  - simpl. lia.
Qed.

Lemma two_digits_length (n : Z) :
  (0 <= n < 100)%Z -> String.length (two_digits n) = 2%nat.
Proof.
  intros H.
  assert (Hall : forallb
                   (fun m => Nat.eqb (String.length (two_digits m)) 2)
                   (range 100) = true) by (vm_compute; reflexivity).
  rewrite forallb_forall in Hall.
  apply Nat.eqb_eq, Hall, range_In, H.
Qed.

Lemma printf_2f_length (q : Q) :
  (4 <= String.length (printf_2f (Finite q)))%nat.
Proof.
  unfold printf_2f. rewrite !string_length_append.
  rewrite two_digits_length by (apply Z.mod_pos_bound; lia).
  pose proof (string_of_Z_length (round_half_even (Qabs q * 100) / 100)).
  simpl String.length at 3. lia.
Qed.

(** C9, on the code.  The text formatted into [pathname] never fits the
    50 bytes of the array: with finite loads it has at least 51 characters
    before its terminating NUL. *)
Theorem pathname_never_fits (FirstNodeLoad RestNodeLoad : Q) (PktLength : Z) :
  fits pathname_size
    (pathname_text (Finite FirstNodeLoad) (Finite RestNodeLoad) PktLength)
  = false.
Proof.
  unfold fits, pathname_text, pathname_size.
  rewrite !string_length_append.
  pose proof (printf_2f_length FirstNodeLoad).
  pose proof (printf_2f_length RestNodeLoad).
  pose proof (string_of_Z_length PktLength).
  apply Nat.leb_gt. simpl String.length at 1 3 5. lia.
Qed.

(** The two paths of the default batch: 53 characters each, equal up to the
    packet length. *)
Lemma default_pathnames :
  pathname_text (of_Z 1) (Finite (14 # 100)) 200
  = "./CDoS-6Mbps-adhoc-UDP-building/u_0=1.00rho=0.14T=200" /\
  pathname_text (of_Z 1) (Finite (14 # 100)) 1500
  = "./CDoS-6Mbps-adhoc-UDP-building/u_0=1.00rho=0.14T=1500" /\
  String.length (pathname_text (of_Z 1) (Finite (14 # 100)) 200) = 53%nat /\
  fits pathname_size (pathname_text (of_Z 1) (Finite (14 # 100)) 200) = false.
Proof. repeat split. Qed.

(** The path a run hands to the statistics helper, when it gets there, is
    the text formatted from its two loads and its packet length, followed by
    [/nodes]. *)
Lemma run_output_path (enableCtsRts : bool) (NumofNode DurationofSimulation : Z)
    (FirstNodeLoad RestNodeLoad : double) (PktLength : Z) (w : World) :
  fits pathname_size (pathname_text FirstNodeLoad RestNodeLoad PktLength)
  = true ->
  In (EnableAthstats
        (pathname_text FirstNodeLoad RestNodeLoad PktLength ++ "/nodes")%string
        NumofNode)
     (trace (experiment enableCtsRts NumofNode DurationofSimulation
               FirstNodeLoad RestNodeLoad PktLength) w).
Proof.
  intros Hfits.
  destruct (experiment_trace enableCtsRts NumofNode DurationofSimulation
              FirstNodeLoad RestNodeLoad PktLength w) as (r1 & r2 & ->).
  do 3 (apply in_or_app; right). unfold closing_calls. rewrite Hfits.
  do 3 right. left. reflexivity.
Qed.

(** ** Activity windows *)



(** * Further properties of [experiment] and [main] *)

(** ** Observing the calls of a run *)

Section Observers.

Variables (enableCtsRts : bool) (NumofNode DurationofSimulation : Z).
Variables (FirstNodeLoad RestNodeLoad : double) (PktLength : Z) (w : World).

Let tr := trace (experiment enableCtsRts NumofNode DurationofSimulation
                   FirstNodeLoad RestNodeLoad PktLength) w.

(** What an observer sees of a run when it ignores the installations. *)
Lemma observe_run {B} (g : Call -> list B) :
  (forall n h, g (Install n h) = []) ->
  exists r1 r2 : Z,
    flat_map g tr
    = flat_map g (setup_calls enableCtsRts NumofNode)
      ++ flat_map g (closing_calls NumofNode DurationofSimulation
                       FirstNodeLoad RestNodeLoad PktLength r1 r2).
Proof.
  intros Hg. subst tr.
  destruct (experiment_trace enableCtsRts NumofNode DurationofSimulation
              FirstNodeLoad RestNodeLoad PktLength w) as (r1 & r2 & ->).
  exists r1, r2. rewrite !flat_map_app. f_equal.
  unfold flow_calls, probe_calls. rewrite !flat_map_nested.
  rewrite (flat_map_ext _ (fun _ => [])), flat_map_empty.
  - rewrite (flat_map_ext _ (fun _ => [])), flat_map_empty; [reflexivity|].
    intros i. cbn [flat_map]. rewrite Hg. reflexivity.
  - intros i. cbn [flat_map]. rewrite !Hg. reflexivity.
Qed.

Lemma installs_run :
  installs tr
  = flat_map
      (fun i =>
         [((i * 2)%Z,
           onoffhelper NumofNode FirstNodeLoad RestNodeLoad PktLength i);
          ((i * 2 + 1)%Z, sink i)])
      (range (NumofNode / 2))
    ++ map (fun i => ((i * 2)%Z, echoClientHelper i)) (range (NumofNode / 2)).
Proof.
  subst tr.
  destruct (experiment_trace enableCtsRts NumofNode DurationofSimulation
              FirstNodeLoad RestNodeLoad PktLength w) as (r1 & r2 & ->).
  rewrite !installs_app, installs_setup, installs_closing, app_nil_r.
  cbn [app]. unfold flow_calls, probe_calls.
  rewrite !flat_map_installs.
  rewrite <- (flat_map_singleton (fun i => ((i * 2)%Z, echoClientHelper i))).
  reflexivity.
Qed.

Lemma installs_run_In (n : Z) (h : Helper) :
  In (n, h) (installs tr) ->
  exists i : Z, (0 <= i < NumofNode / 2)%Z /\ (n = i * 2 \/ n = i * 2 + 1)%Z.
Proof.
  rewrite installs_run, in_app_iff, in_flat_map, in_map_iff.
  intros [(i & Hi & Hin) | (i & E & Hi)]; exists i; apply range_In in Hi;
    (split; [exact Hi|]).
  - destruct Hin as [E | [E | []]]; inversion E; [left | right]; reflexivity.
  - inversion E. left. reflexivity.
Qed.

End Observers.

(** ** Where the nodes are *)

Lemma node_position_x (i : Z) :
  node_position i
  = (Finite (Qred ((87 # 2) - inject_Z (8 * i))), Finite 0, Finite 1).
Proof.
  unfold node_position, of_Z. double_step. do 2 f_equal.
  apply Finite_Qeq. rewrite Qred_correct. reflexivity.
Qed.

(** X1.  A run places node [i] at (43.5 - 8 i, 0, 1), for each of its
    [NumofNode] nodes in turn; the position lies within the bounds of the
    building exactly for the nodes 0 to 5. *)
Theorem nodes_in_the_building (enableCtsRts : bool)
    (NumofNode DurationofSimulation : Z)
    (FirstNodeLoad RestNodeLoad : double) (PktLength : Z) (w : World) :
  positions (trace (experiment enableCtsRts NumofNode DurationofSimulation
                      FirstNodeLoad RestNodeLoad PktLength) w)
  = map (fun i => (i, node_position i)) (range NumofNode) /\
  forall i : Z, (0 <= i)%Z ->
    (inside building1 (node_position i) = true <-> (i <= 5)%Z).
Proof.
  split.
  - destruct (observe_run enableCtsRts NumofNode DurationofSimulation
                FirstNodeLoad RestNodeLoad PktLength w
                (fun c => match c with
                          | SetPosition n x y z => [(n, (x, y, z))]
                          | _ => []
                          end) (fun _ _ => eq_refl)) as (r1 & r2 & E).
    unfold positions. rewrite E. unfold setup_calls, closing_calls, final_calls.
    rewrite flat_map_app, flat_map_nested.
    destruct (fits _ _); cbn [flat_map app]; rewrite app_nil_r;
      apply flat_map_singleton.
  - intros i Hi. rewrite node_position_x. unfold inside, building1.
    cbn [xMin xMax yMin yMax zMin zMax].
    replace (Qle_bool (-3) 0 && Qle_bool 0 3 && Qle_bool 0 1 && Qle_bool 1 3)
      with true by reflexivity.
    rewrite !andb_true_iff, !Qle_bool_iff, !Qred_correct.
    rewrite inject_Z_mult. change (inject_Z 8) with 8%Q.
    pose proof Hi as Hi'. rewrite Zle_Qle in Hi'.
    change (inject_Z 0) with 0%Q in Hi'.
    split.
    + intros [[[[[H1 H2] _] _] _] _].
      assert (H : (inject_Z (16 * i) <= inject_Z 87)%Q).
      { rewrite inject_Z_mult. change (inject_Z 16) with 16%Q.
        change (inject_Z 87) with 87%Q. lra. }
      rewrite <- Zle_Qle in H. lia.
    + intros H. rewrite Zle_Qle in H. change (inject_Z 5) with 5%Q in H.
      repeat split; try reflexivity; lra.
Qed.

(** The theorem at the default run: node 5 is inside, a node 6 would not
    be. *)
Lemma nodes_in_the_building_witness :
  inside building1 (node_position 5) = true /\
  ~ inside building1 (node_position 6) = true.
Proof.
  pose proof (proj2 (nodes_in_the_building false 6 203 (of_Z 1)
                       (Finite (14 # 100)) 200 fresh_world)) as H.
  split.
  - apply (H 5%Z); lia.
  - intros E. apply (H 6%Z) in E; lia.
Defined.

(** ** Ports *)

Lemma remote_port_onoffhelper (NumofNode : Z)
    (FirstNodeLoad RestNodeLoad : double) (PktLength i : Z) :
  port_attribute "Remote"
    (onoffhelper NumofNode FirstNodeLoad RestNodeLoad PktLength i)
  = Some (to_uint16 (cbrPort + i)).
Proof.
  unfold onoffhelper.
  destruct (i =? attacking_index NumofNode)%Z; [|reflexivity].
  destruct (FirstNodeLoad == of_Z 1)%dbl; [reflexivity|].
  destruct (FirstNodeLoad == of_Z 0)%dbl; reflexivity.
Qed.

(** X2.  In a run of fewer than 2^16 nodes the sender of flow [i] sends to
    the port 12345 + i, on which the sink of flow [i] listens: the sum never
    wraps around in 16 bits, and different flows have different ports. *)
Theorem flow_ports (NumofNode : Z) (FirstNodeLoad RestNodeLoad : double)
    (PktLength i j : Z) :
  (0 <= NumofNode < 65536)%Z ->
  (0 <= i < NumofNode / 2)%Z -> (0 <= j < NumofNode / 2)%Z ->
  port_attribute "Remote"
    (onoffhelper NumofNode FirstNodeLoad RestNodeLoad PktLength i)
  = Some (12345 + i)%Z /\
  port_attribute "Local" (sink i) = Some (12345 + i)%Z /\
  (i <> j ->
   port_attribute "Local" (sink i) <> port_attribute "Local" (sink j)).
Proof.
  intros HN Hi Hj.
  assert (Hhalf : (NumofNode / 2 < 32768)%Z)
    by (apply Z.div_lt_upper_bound; lia).
  assert (Ei : to_uint16 (cbrPort + i) = (12345 + i)%Z)
    by (unfold to_uint16, cbrPort; apply Z.mod_small; lia).
  assert (Ej : to_uint16 (cbrPort + j) = (12345 + j)%Z)
    by (unfold to_uint16, cbrPort; apply Z.mod_small; lia).
  rewrite remote_port_onoffhelper.
  change (port_attribute "Local" (sink i))
    with (Some (to_uint16 (cbrPort + i))).
  change (port_attribute "Local" (sink j))
    with (Some (to_uint16 (cbrPort + j))).
  rewrite Ei, Ej. repeat split. intros Hne E.
  assert (E' : (12345 + i = 12345 + j)%Z) by congruence. lia.
Qed.

(** The theorem at the default six nodes, flows 0 and 2. *)
Lemma flow_ports_witness :
  port_attribute "Remote"
    (onoffhelper 6 (of_Z 1) (Finite (14 # 100)) 200 0) = Some (12345 + 0)%Z /\
  port_attribute "Local" (sink 0) = Some (12345 + 0)%Z /\
  (0%Z <> 2%Z ->
   port_attribute "Local" (sink 0) <> port_attribute "Local" (sink 2)).
Proof.
  apply (flow_ports 6 (of_Z 1) (Finite (14 # 100)) 200 0 2);
    [lia | split; [lia | reflexivity] | split; [lia | reflexivity]].
Defined.

(** ** The nodes that get an application *)

(** X3.  Every application of a run is installed on a node the run has
    created, one of the nodes 0 to [NumofNode - 1]; when [NumofNode] is odd
    the last node gets none. *)
Theorem installs_within_nodes (enableCtsRts : bool)
    (NumofNode DurationofSimulation : Z)
    (FirstNodeLoad RestNodeLoad : double) (PktLength : Z) (w : World)
    (n : Z) (h : Helper) :
  (0 <= NumofNode)%Z ->
  In (n, h)
     (installs (trace (experiment enableCtsRts NumofNode DurationofSimulation
                         FirstNodeLoad RestNodeLoad PktLength) w)) ->
  (0 <= n < NumofNode)%Z /\
  (Z.odd NumofNode = true -> n <> (NumofNode - 1)%Z).
Proof.
  intros HN Hin. apply installs_run_In in Hin.
  destruct Hin as (i & Hi & Hn).
  pose proof (Z.mul_div_le NumofNode 2 ltac:(lia)) as Hle.
  split; [lia|].
  intros Hodd. apply Z.odd_spec in Hodd. destruct Hodd as [m Hm].
  pose proof (Z.div_mod NumofNode 2 ltac:(lia)).
  pose proof (Z.mod_pos_bound NumofNode 2 ltac:(lia)). lia.
Qed.

(** The theorem at a run of seven nodes: the sink of flow 2 is on node 5,
    and node 6 is not used. *)
Lemma installs_within_nodes_witness :
  (0 <= 5 < 7)%Z /\ (Z.odd 7 = true -> 5%Z <> (7 - 1)%Z).
Proof.
  apply (installs_within_nodes false 7 203 (of_Z 1) (Finite (14 # 100)) 200
           fresh_world 5 (sink 2)).
  - lia.
  - rewrite installs_run. apply in_or_app. left.
    apply in_flat_map. exists 2%Z. split; [apply range_In; split; [lia | reflexivity]|].
    right. left. reflexivity.
Defined.

(** X4.  A run of fewer than two nodes has no flow: it installs no
    application at all, and conversely. *)
Theorem run_without_flows (enableCtsRts : bool)
    (NumofNode DurationofSimulation : Z)
    (FirstNodeLoad RestNodeLoad : double) (PktLength : Z) (w : World) :
  (0 <= NumofNode)%Z ->
  let tr := trace (experiment enableCtsRts NumofNode DurationofSimulation
                     FirstNodeLoad RestNodeLoad PktLength) w in
  installs tr = [] <-> (NumofNode < 2)%Z.
Proof.
  intros HN tr. subst tr.
  rewrite installs_run. split.
  - intros E. apply app_eq_nil in E. destruct E as [_ E].
    apply map_eq_nil in E.
    destruct (Z.ltb_spec NumofNode 2) as [|Hge]; [assumption|].
    assert (Hin : In 0%Z (range (NumofNode / 2))).
    { apply range_In. split; [lia|].
      apply Z.div_str_pos. lia. }
    rewrite E in Hin. destruct Hin.
  - intros Hlt. rewrite (Z.div_small NumofNode 2) by lia. reflexivity.
Qed.

(** The theorem at a run of one node. *)
Lemma run_without_flows_witness :
  let tr := trace (experiment false 1 203 (of_Z 1) (Finite (14 # 100)) 200)
              fresh_world in
  installs tr = [] <-> (1 < 2)%Z.
Proof.
  apply (run_without_flows false 1 203 (of_Z 1) (Finite (14 # 100)) 200
           fresh_world). lia.
Defined.

(** X5.  A run installs three applications for each of its [NumofNode/2]
    flows, an on/off sender, a packet sink and an echo client, and nothing
    else: in particular no echo server, so that no probe is answered. *)
Theorem applications_of_a_run (enableCtsRts : bool)
    (NumofNode DurationofSimulation : Z)
    (FirstNodeLoad RestNodeLoad : double) (PktLength : Z) (w : World) :
  let tr := trace (experiment enableCtsRts NumofNode DurationofSimulation
                     FirstNodeLoad RestNodeLoad PktLength) w in
  List.length (installs tr) = (3 * Z.to_nat (NumofNode / 2))%nat /\
  List.length (installs_of "ns3::UdpEchoClient" tr)
  = Z.to_nat (NumofNode / 2) /\
  installs_of "ns3::UdpEchoServer" tr = [] /\
  forall (n : Z) (h : Helper), In (n, h) (installs tr) ->
    type_id h = "ns3::OnOffApplication" \/ type_id h = "ns3::PacketSink"
    \/ type_id h = "ns3::UdpEchoClient".
Proof.
  intros tr. subst tr. split; [|split; [|split]].
  - rewrite installs_run, length_app, length_map, range_length.
    assert (E : forall l : list Z,
      List.length
        (flat_map
           (fun i =>
              [((i * 2)%Z,
                onoffhelper NumofNode FirstNodeLoad RestNodeLoad PktLength i);
               ((i * 2 + 1)%Z, sink i)]) l)
      = (2 * List.length l)%nat).
    { induction l as [|x l IH]; [reflexivity|].
      cbn [flat_map app List.length]. rewrite IH. lia. }
    rewrite E, range_length. lia.
  - rewrite installed_probes, length_map, range_length. reflexivity.
  - rewrite installs_of_run.
    rewrite (flat_map_ext _ (fun _ => [])), flat_map_empty.
    + rewrite (flat_map_ext _ (fun _ => [])) by reflexivity.
      apply flat_map_empty.
    + intros i. cbn [filter snd]. rewrite type_id_onoffhelper. reflexivity.
  - intros n h. rewrite installs_run, in_app_iff, in_flat_map, in_map_iff.
    intros [(i & _ & [E | [E | []]]) | (i & E & _)]; inversion E.
    + left. apply type_id_onoffhelper.
    + right. left. reflexivity.
    + right. right. reflexivity.
Qed.

(** The theorem at the default run: the probe of flow 1 is an echo
    client. *)
Lemma applications_of_a_run_witness :
  type_id (echoClientHelper 1) = "ns3::OnOffApplication"
  \/ type_id (echoClientHelper 1) = "ns3::PacketSink"
  \/ type_id (echoClientHelper 1) = "ns3::UdpEchoClient".
Proof.
  apply (proj2 (proj2 (proj2
           (applications_of_a_run false 6 203 (of_Z 1) (Finite (14 # 100)) 200
              fresh_world))) 2%Z).
  rewrite installs_run. apply in_or_app. right.
  apply in_map_iff. exists 1%Z. split; [reflexivity|].
  apply range_In. split; [lia | reflexivity].
Defined.

(** ** Loads that are not numbers, and empty packets *)

(** X8.  A load that is not a number is not caught by the two comparisons
    of the attacking flow either: whichever flow is calibrated from it gets
    the packet time as on-duration and an exponential off-duration whose
    mean is not a number. *)
Theorem nan_load_goes_through (NumofNode : Z)
    (FirstNodeLoad RestNodeLoad : double) (PktLength i : Z) :
  flow_load NumofNode FirstNodeLoad RestNodeLoad i = NaN ->
  on_time (onoffhelper NumofNode FirstNodeLoad RestNodeLoad PktLength i)
    = Some (ConstantRandomVariable (stream_double (pkt_time PktLength))) /\
  off_time (onoffhelper NumofNode FirstNodeLoad RestNodeLoad PktLength i)
    = Some (ExponentialRandomVariable NaN).
Proof.
  unfold flow_load. intros Hload.
  destruct (Z.eqb_spec i (attacking_index NumofNode)) as [Hi|Hi].
  - subst FirstNodeLoad.
    apply (onoffhelper_attacking_generic NumofNode NaN RestNodeLoad PktLength
             i Hi); reflexivity.
  - subst RestNodeLoad.
    apply (onoffhelper_ordinary NumofNode FirstNodeLoad NaN PktLength i Hi).
Qed.

(** The theorem at the attacking flow of six nodes. *)
Lemma nan_load_goes_through_witness :
  on_time (onoffhelper 6 NaN (Finite (14 # 100)) 200 2)
    = Some (ConstantRandomVariable (stream_double (pkt_time 200))) /\
  off_time (onoffhelper 6 NaN (Finite (14 # 100)) 200 2)
    = Some (ExponentialRandomVariable NaN).
Proof.
  apply (nan_load_goes_through 6 NaN (Finite (14 # 100)) 200 2).
  reflexivity.
Defined.

(** X9.  With a packet length of 0 an ordinary flow of finite load other
    than 0 gets the on-duration 0 and an off-duration of mean 0; at the
    load 0 the mean is not a number. *)
Theorem empty_packet_calibration (NumofNode : Z)
    (FirstNodeLoad : double) (q : Q) (i : Z) :
  i <> attacking_index NumofNode ->
  on_time (onoffhelper NumofNode FirstNodeLoad (Finite q) 0 i)
    = Some (ConstantRandomVariable (Finite 0)) /\
  (~ (q == 0)%Q ->
   off_time (onoffhelper NumofNode FirstNodeLoad (Finite q) 0 i)
     = Some (ExponentialRandomVariable (Finite 0))) /\
  ((q == 0)%Q ->
   off_time (onoffhelper NumofNode FirstNodeLoad (Finite q) 0 i)
     = Some (ExponentialRandomVariable NaN)).
Proof.
  intros Hi.
  destruct (onoffhelper_ordinary NumofNode FirstNodeLoad (Finite q) 0 i Hi)
    as [Hon Hoff].
  assert (E0 : pkt_time 0 = Finite 0) by (vm_compute; reflexivity).
  rewrite Hon, Hoff, E0.
  assert (Einv : (of_Z 1 / Finite 0)%b64 = Infinity false) by reflexivity.
  split; [reflexivity|]. split; intros Hq.
  - unfold offtime_mean. rewrite Einv. unfold mul64.
    cbn [Double.mul]. rewrite (proj2 (Qzero_bool_false q) Hq).
    reflexivity.
  - unfold offtime_mean. rewrite Einv. unfold mul64.
    cbn [Double.mul]. rewrite (proj2 (Qzero_bool_true q) Hq).
    reflexivity.
Qed.

(** The theorem at ordinary flow 0 of six nodes, at the load 0.14 and at the
    load 0. *)
Lemma empty_packet_calibration_witness :
  off_time (onoffhelper 6 (of_Z 1) (Finite (14 # 100)) 0 0)
    = Some (ExponentialRandomVariable (Finite 0)) /\
  off_time (onoffhelper 6 (of_Z 1) (Finite 0) 0 0)
    = Some (ExponentialRandomVariable NaN).
Proof.
  split.
  - apply (proj1 (proj2 (empty_packet_calibration 6 (of_Z 1) (14 # 100) 0
                           ltac:(discriminate)))).
    discriminate.
  - apply (proj2 (proj2 (empty_packet_calibration 6 (of_Z 1) 0 0
                           ltac:(discriminate)))).
    reflexivity.
Defined.

(** ** More on the probes *)

Lemma probe_start (i : Z) :
  start_time (echoClientHelper i)
  = Some (Finite (Qred ((1 # 1000) + inject_Z (i / 1000)))).
Proof.
  change (start_time (echoClientHelper i))
    with (Some (Finite (1 # 1000) + of_Z (i / 1000))%dbl).
  reflexivity.
Qed.

(** X10.  In a run of fewer than 2^16 nodes the probe of every flow starts
    before the real traffic of that flow. *)
Theorem probe_before_own_traffic (NumofNode : Z)
    (FirstNodeLoad RestNodeLoad : double) (PktLength i : Z) :
  (0 <= NumofNode < 65536)%Z -> (0 <= i < NumofNode / 2)%Z ->
  starts_before (echoClientHelper i)
    (onoffhelper NumofNode FirstNodeLoad RestNodeLoad PktLength i) = true.
Proof.
  intros HN Hi. unfold starts_before. rewrite probe_start.
  assert (Hhalf : (NumofNode / 2 < 32768)%Z)
    by (apply Z.div_lt_upper_bound; lia).
  assert (Hq0 : (0 <= i / 1000)%Z) by (apply Z.div_pos; lia).
  assert (Hq1 : (1000 * (i / 1000) <= i)%Z) by (apply Z.mul_div_le; lia).
  assert (HQ : (1000 * inject_Z (i / 1000) <= inject_Z i)%Q).
  { change 1000%Q with (inject_Z 1000). rewrite <- inject_Z_mult.
    rewrite <- Zle_Qle. exact Hq1. }
  assert (HQ0 : (0 <= inject_Z (i / 1000))%Q).
  { change 0%Q with (inject_Z 0). rewrite <- Zle_Qle. exact Hq0. }
  assert (HQi : (inject_Z i < 32768)%Q).
  { change 32768%Q with (inject_Z 32768). rewrite <- Zlt_Qlt. lia. }
  destruct (Z.eq_dec i (attacking_index NumofNode)) as [Ha|Ho].
  - rewrite (proj1 (onoffhelper_attacking_window NumofNode FirstNodeLoad
                      RestNodeLoad PktLength i Ha)).
    change (of_Z 53) with (Finite (Qred 53)).
    apply ltb_Finite. lra.
  - rewrite (proj1 (onoffhelper_ordinary_window NumofNode FirstNodeLoad
                      RestNodeLoad PktLength i Ho)).
    rewrite ordinary_start_value. apply ltb_Finite. lra.
Qed.

(** The theorem at the three flows' last, the attacking flow of the default
    run. *)
Lemma probe_before_own_traffic_witness :
  starts_before (echoClientHelper 2)
    (onoffhelper 6 (of_Z 1) (Finite (14 # 100)) 200 2) = true.
Proof.
  apply (probe_before_own_traffic 6 (of_Z 1) (Finite (14 # 100)) 200 2);
    [lia | split; [lia | reflexivity]].
Defined.

(** X11.  Two probes start at the same time exactly when their flow indices
    have the same quotient by 1000: the start time 0.001 + i/1000 is
    computed with an integer quotient. *)
Theorem probes_start_together (i j : Z) :
  (0 <= i)%Z -> (0 <= j)%Z ->
  (start_time (echoClientHelper i) = start_time (echoClientHelper j)
   <-> (i / 1000 = j / 1000)%Z).
Proof.
  intros _ _. rewrite !probe_start. split.
  - intros E.
    assert (E' : Qred ((1 # 1000) + inject_Z (i / 1000))
                 = Qred ((1 # 1000) + inject_Z (j / 1000))) by congruence.
    apply Qred_eq_iff in E'.
    assert (E'' : (inject_Z (i / 1000) == inject_Z (j / 1000))%Q) by lra.
    apply inject_Z_injective. exact E''.
  - intros ->. reflexivity.
Qed.

(** The theorem at the flows 0 and 999, and at the flows 999 and 1000. *)
Lemma probes_start_together_witness :
  start_time (echoClientHelper 0) = start_time (echoClientHelper 999) /\
  start_time (echoClientHelper 999) <> start_time (echoClientHelper 1000).
Proof.
  split.
  - apply (probes_start_together 0 999); [lia | lia | reflexivity].
  - intros E. apply (probes_start_together 999 1000) in E; [|lia|lia].
    discriminate E.
Defined.

(** ** More on streaming *)

(** X12.  Writing a finite double into a descriptor changes it by at most
    5 millionths of its magnitude, keeps its sign, and keeps 0 as 0. *)
Theorem stream_double_error (q : Q) :
  exists r : Q,
    stream_double (Finite q) = Finite r /\
    (Qabs (r - q) <= Qabs q * (5 # 1000000))%Q /\
    ((0 < q)%Q <-> (0 < r)%Q) /\ ((q < 0)%Q <-> (r < 0)%Q).
Proof.
  destruct (Q_dec q 0) as [[Hneg|Hpos]|Hz].
  - assert (Hpos : (0 < - q)%Q) by lra.
    pose proof (round_significant_error (- q) Hpos) as Herr.
    exists (Qred (- round_significant 6 (- q))).
    unfold stream_double.
    rewrite (proj2 (Qzero_bool_false q)) by lra.
    rewrite (proj2 (Qneg_bool_true q) Hneg).
    split; [reflexivity|]. rewrite Qred_correct.
    rewrite (Qabs_neg q) by lra.
    apply Qabs_Qle_condition in Herr. destruct Herr as [Hl Hu].
    split; [apply Qabs_Qle_condition; split; lra|].
    split; split; intros H; lra.
  - destruct (stream_double_positive q Hpos) as (r & Er & Herr).
    exists r. split; [exact Er|].
    rewrite (Qabs_pos q) by lra. split; [exact Herr|].
    apply Qabs_Qle_condition in Herr. destruct Herr as [Hl Hu].
    split; split; intros H; lra.
  - exists 0%Q. split; [apply stream_double_zero, Hz|].
    rewrite Hz. split; [discriminate|].
    split; split; intros H; discriminate H.
Qed.

(** ** The activity of an ordinary flow *)

(** X13.  An ordinary flow has a start time and no stop time: in a run of
    [d] seconds flow [k] is active from 3.1 + 0.01 k to the end of the run,
    and never when the run is not longer than its start time. *)
Theorem ordinary_flow_activity (NumofNode : Z)
    (FirstNodeLoad RestNodeLoad : double) (PktLength k d : Z) (t : Q) :
  k <> attacking_index NumofNode ->
  let h := onoffhelper NumofNode FirstNodeLoad RestNodeLoad PktLength k in
  (active_at h (of_Z d) t
   <-> ((31 # 10) + inject_Z k * (1 # 100) <= t < inject_Z d)%Q) /\
  ((inject_Z d <= (31 # 10) + inject_Z k * (1 # 100))%Q ->
   ~ active_at h (of_Z d) t).
Proof.
  intros Hk h. subst h. unfold active_at.
  destruct (onoffhelper_ordinary_window NumofNode FirstNodeLoad RestNodeLoad
              PktLength k Hk) as [-> ->].
  rewrite ordinary_start_value. unfold of_Z.
  split.
  - rewrite Qred_correct. tauto.
  - rewrite Qred_correct. intros Hd (H1 & H2 & _). lra.
Qed.

(** The theorem at ordinary flow 1 of the default run, after 100 seconds,
    and in a run of 3 seconds. *)
Lemma ordinary_flow_activity_witness :
  active_at (onoffhelper 6 (of_Z 1) (Finite (14 # 100)) 200 1) (of_Z 203) 100
  /\ ~ active_at (onoffhelper 6 (of_Z 1) (Finite (14 # 100)) 200 1) (of_Z 3) 2.
Proof.
  split.
  - apply (proj1 (ordinary_flow_activity 6 (of_Z 1) (Finite (14 # 100)) 200
                    1 203 100 ltac:(discriminate))).
    split; [discriminate | reflexivity].
  - apply (proj2 (ordinary_flow_activity 6 (of_Z 1) (Finite (14 # 100)) 200
                    1 3 2 ltac:(discriminate))).
    discriminate.
Defined.

(** ** More on the output path *)

Lemma string_of_Z_inj (z1 z2 : Z) :
  string_of_Z z1 = string_of_Z z2 -> z1 = z2.
Proof.
  unfold string_of_Z. intros E. apply DecimalZ.to_int_inj.
  assert (Hnn : forall z, Z.to_int z <> Decimal.Pos Decimal.Nil
                          /\ Z.to_int z <> Decimal.Neg Decimal.Nil).
  { intros [|p|p]; split; try discriminate; simpl; intros H; inversion H;
      apply (DecimalPos.Unsigned.to_uint_nonnil p); assumption. }
  apply (f_equal NilZero.int_of_string) in E.
  rewrite !NilZero.isi in E by apply Hnn.
  congruence.
Qed.

Lemma string_append_cancel (a b c : string) :
  (a ++ b)%string = (a ++ c)%string -> b = c.
Proof.
  induction a as [|x a IH]; cbn [String.append]; intros E;
    [exact E | apply IH; congruence].
Qed.

(** X14.  With the same two loads, two different packet lengths always give
    two different paths. *)
Theorem pathname_distinguishes_lengths
    (FirstNodeLoad RestNodeLoad : double) (P1 P2 : Z) :
  P1 <> P2 ->
  pathname_text FirstNodeLoad RestNodeLoad P1
  <> pathname_text FirstNodeLoad RestNodeLoad P2.
Proof.
  intros Hne E. apply Hne. unfold pathname_text in E.
  do 5 apply string_append_cancel in E.
  apply string_of_Z_inj, E.
Qed.

(** The theorem at the two packet lengths of the default batch. *)
Lemma pathname_distinguishes_lengths_witness :
  pathname_text (of_Z 1) (Finite (14 # 100)) 200
  <> pathname_text (of_Z 1) (Finite (14 # 100)) 1500.
Proof.
  apply (pathname_distinguishes_lengths (of_Z 1) (Finite (14 # 100)) 200 1500).
  discriminate.
Defined.

Lemma string_of_uint_length (d : Decimal.uint) :
  String.length (NilEmpty.string_of_uint d) = Decimal.nb_digits d.
Proof. induction d; simpl; congruence. Qed.

Lemma string_of_Z_pos_length (p : positive) :
  String.length (string_of_Z (Zpos p))
  = Decimal.nb_digits (DecimalPos.Unsigned.to_lu (Npos p)).
Proof.
  unfold string_of_Z. cbn [Z.to_int NilZero.string_of_int].
  pose proof (DecimalPos.Unsigned.to_uint_nonnil p) as Hnn.
  unfold NilZero.string_of_uint.
  destruct (Pos.to_uint p) eqn:E; try contradiction;
    rewrite <- E, string_of_uint_length; unfold Pos.to_uint;
    apply DecimalFacts.nb_digits_rev.
Qed.

Lemma digits_tenfold (p : positive) (d : N) :
  (d < 10)%N ->
  Decimal.nb_digits (DecimalPos.Unsigned.to_lu (10 * Npos p + d))
  = S (Decimal.nb_digits (DecimalPos.Unsigned.to_lu (Npos p))).
Proof.
  intros Hd.
  assert (Hcases : (d = 0 \/ d = 1 \/ d = 2 \/ d = 3 \/ d = 4 \/ d = 5
                    \/ d = 6 \/ d = 7 \/ d = 8 \/ d = 9)%N) by lia.
  set (t := (10 * N.pos p)%N).
  assert (Ht : DecimalPos.Unsigned.to_lu t
               = Decimal.D0 (DecimalPos.Unsigned.to_lu (N.pos p)))
    by apply DecimalPos.Unsigned.to_ldec_tenfold.
  clearbody t.
  repeat (destruct Hcases as [-> | Hcases]); try subst d;
    [ rewrite N.add_0_r
    | replace (t + 1)%N with (N.succ t) by lia
    | replace (t + 2)%N with (N.succ (N.succ t)) by lia
    | replace (t + 3)%N with (N.succ (N.succ (N.succ t))) by lia
    | replace (t + 4)%N with (N.succ (N.succ (N.succ (N.succ t)))) by lia
    | replace (t + 5)%N
        with (N.succ (N.succ (N.succ (N.succ (N.succ t))))) by lia
    | replace (t + 6)%N
        with (N.succ (N.succ (N.succ (N.succ (N.succ (N.succ t)))))) by lia
    | replace (t + 7)%N
        with (N.succ (N.succ (N.succ (N.succ (N.succ (N.succ (N.succ t)))))))
        by lia
    | replace (t + 8)%N
        with (N.succ (N.succ (N.succ (N.succ (N.succ (N.succ (N.succ
               (N.succ t)))))))) by lia
    | replace (t + 9)%N
        with (N.succ (N.succ (N.succ (N.succ (N.succ (N.succ (N.succ
               (N.succ (N.succ t))))))))) by lia ];
    rewrite ?DecimalPos.Unsigned.to_lu_succ, Ht; reflexivity.
Qed.

Lemma string_of_Z_tenfold (n : Z) :
  (10 <= n)%Z ->
  String.length (string_of_Z n) = S (String.length (string_of_Z (n / 10))).
Proof.
  intros Hn.
  pose proof (Z.div_mod n 10 ltac:(lia)) as Hdm.
  pose proof (Z.mod_pos_bound n 10 ltac:(lia)) as Hm.
  assert (Hq : (0 < n / 10)%Z) by (apply Z.div_str_pos; lia).
  destruct (n / 10)%Z as [|q|q] eqn:Eq; try lia.
  destruct n as [|p|p]; try lia.
  rewrite !string_of_Z_pos_length.
  replace (N.pos p) with (10 * N.pos q + Z.to_N (Z.pos p mod 10))%N by lia.
  apply digits_tenfold. lia.
Qed.

Lemma string_of_Z_digit (n : Z) :
  (0 <= n < 10)%Z -> String.length (string_of_Z n) = 1%nat.
Proof.
  intros H.
  assert (Hall : forallb
                   (fun m => Nat.eqb (String.length (string_of_Z m)) 1)
                   (range 10) = true) by reflexivity.
  rewrite forallb_forall in Hall.
  apply Nat.eqb_eq, Hall, range_In, H.
Qed.

Lemma string_of_Z_digits (n : Z) :
  (0 <= n < 65536)%Z -> String.length (string_of_Z n) = digits_uint16 n.
Proof.
  intros H. unfold digits_uint16.
  assert (Hdiv : forall m, (0 <= m)%Z -> (0 <= m / 10)%Z)
    by (intros; apply Z.div_pos; lia).
  assert (Hlt : forall m b, (0 <= m < 10 * b)%Z -> (m / 10 < b)%Z)
    by (intros; apply Z.div_lt_upper_bound; lia).
  assert (Hge : forall m b, (10 * b <= m)%Z -> (b <= m / 10)%Z)
    by (intros; apply Z.div_le_lower_bound; lia).
  destruct (Z.ltb_spec n 10); [apply string_of_Z_digit; lia|].
  rewrite string_of_Z_tenfold by lia.
  destruct (Z.ltb_spec n 100).
  { rewrite string_of_Z_digit; [reflexivity|]. split; [apply Hdiv | apply Hlt]; lia. }
  rewrite string_of_Z_tenfold by (apply Hge; lia).
  destruct (Z.ltb_spec n 1000).
  { rewrite string_of_Z_digit; [reflexivity|].
    split; [apply Hdiv, Hdiv | apply Hlt; split; [apply Hdiv | apply Hlt]]; lia. }
  rewrite string_of_Z_tenfold by (apply Hge, Hge; lia).
  destruct (Z.ltb_spec n 10000).
  { rewrite string_of_Z_digit; [reflexivity|].
    split; [apply Hdiv, Hdiv, Hdiv; lia|].
    apply Hlt; split; [apply Hdiv, Hdiv; lia|].
    apply Hlt; split; [apply Hdiv; lia|]. apply Hlt; lia. }
  rewrite string_of_Z_tenfold by (apply Hge, Hge, Hge; lia).
  rewrite string_of_Z_digit; [reflexivity|].
  split; [apply Hdiv, Hdiv, Hdiv, Hdiv; lia|].
  apply Hlt; split; [apply Hdiv, Hdiv, Hdiv; lia|].
  apply Hlt; split; [apply Hdiv, Hdiv; lia|].
  apply Hlt; split; [apply Hdiv; lia|]. apply Hlt; lia.
Qed.

Lemma printf_2f_small (q : Q) :
  (0 <= q)%Q -> (q * 100 < 1999 # 2)%Q ->
  String.length (printf_2f (Finite q)) = 4%nat.
Proof.
  intros H0 H1. unfold printf_2f.
  rewrite (proj2 (Qneg_bool_false q) H0).
  assert (Habs : Qabs q = q).
  { destruct q as [a b]. unfold Qabs. f_equal. apply Z.abs_eq.
    unfold Qle in H0. simpl in H0. lia. }
  rewrite Habs.
  pose proof (round_half_even_error (q * 100)) as Herr.
  apply Qabs_Qle_condition in Herr. destruct Herr as [Hl Hu].
  set (n := round_half_even (q * 100)) in *.
  assert (Hn : (0 <= n < 1000)%Z).
  { split.
    - assert (H : (inject_Z (-1) < inject_Z n)%Q)
        by (change (inject_Z (-1)) with (-1)%Q; lra).
      rewrite <- Zlt_Qlt in H. lia.
    - rewrite Zlt_Qlt. change (inject_Z 1000) with 1000%Q. lra. }
  rewrite !string_length_append.
  rewrite two_digits_length by (apply Z.mod_pos_bound; lia).
  rewrite string_of_Z_digits.
  - unfold digits_uint16.
    assert (Hd : (n / 100 < 10)%Z) by (apply Z.div_lt_upper_bound; lia).
    rewrite (proj2 (Z.ltb_lt _ _) Hd). reflexivity.
  - split; [apply Z.div_pos; lia|].
    apply Z.lt_trans with 10%Z; [apply Z.div_lt_upper_bound; lia | lia].
Qed.

(** X15.  For two positive loads below 9.995 and a packet length that fits
    16 bits, the path has 50 characters and the digits of the packet
    length: with its terminating NUL it takes 52 to 56 bytes, 2 to 6 more
    than [pathname] has. *)
Theorem pathname_bytes (FirstNodeLoad RestNodeLoad : Q) (PktLength : Z) :
  (0 < FirstNodeLoad)%Q -> (FirstNodeLoad * 100 < 1999 # 2)%Q ->
  (0 < RestNodeLoad)%Q -> (RestNodeLoad * 100 < 1999 # 2)%Q ->
  (0 <= PktLength < 65536)%Z ->
  (String.length
     (pathname_text (Finite FirstNodeLoad) (Finite RestNodeLoad) PktLength) + 1
   = 51 + digits_uint16 PktLength)%nat /\
  (52 <= 51 + digits_uint16 PktLength <= 56)%nat.
Proof.
  intros HF0 HF1 HR0 HR1 HP. split.
  - unfold pathname_text. rewrite !string_length_append.
    rewrite (printf_2f_small _ (Qlt_le_weak _ _ HF0) HF1),
      (printf_2f_small _ (Qlt_le_weak _ _ HR0) HR1).
    rewrite (string_of_Z_digits _ HP). simpl String.length. lia.
  - unfold digits_uint16.
    destruct (PktLength <? 10)%Z; [lia|].
    destruct (PktLength <? 100)%Z; [lia|].
    destruct (PktLength <? 1000)%Z; [lia|].
    destruct (PktLength <? 10000)%Z; lia.
Qed.

(** The theorem at the first run of the default batch: 54 bytes. *)
Lemma pathname_bytes_witness :
  (String.length (pathname_text (Finite 1) (Finite (14 # 100)) 200) + 1
   = 51 + digits_uint16 200)%nat /\
  (52 <= 51 + digits_uint16 200 <= 56)%nat.
Proof.
  apply (pathname_bytes 1 (14 # 100) 200);
    [reflexivity | reflexivity | reflexivity | reflexivity | lia].
Defined.

(** ** What a run leaves behind *)

(** X17.  A run leaves what the file system permits as it is, keeps the
    calls made before it and adds its own after them, removes no directory,
    and creates no directory other than the top directory and its path. *)
Theorem experiment_extends_world (enableCtsRts : bool)
    (NumofNode DurationofSimulation : Z)
    (FirstNodeLoad RestNodeLoad : double) (PktLength : Z) (w : World) :
  let w' := exec (experiment enableCtsRts NumofNode DurationofSimulation
                    FirstNodeLoad RestNodeLoad PktLength) w in
  fs_permits w' = fs_permits w /\
  (exists cs : list Call, calls w' = calls w ++ cs) /\
  (forall x : string, In x (fs_dirs w) -> In x (fs_dirs w')) /\
  (forall x : string, In x (fs_dirs w') ->
     In x (fs_dirs w) \/ x = top_directory
     \/ x = pathname_text FirstNodeLoad RestNodeLoad PktLength).
Proof.
  intros w'. subst w'. unfold exec. rewrite experiment_run.
  cbn [snd fs_permits fs_dirs calls].
  split; [reflexivity|]. split; [eexists; reflexivity|].
  unfold dirs_after. split; intros x Hx.
  - destruct (fits _ _); destruct (_ =? 0)%Z; try destruct (_ =? 0)%Z;
      cbn [In]; tauto.
  - destruct (fits _ _); destruct (_ =? 0)%Z; try destruct (_ =? 0)%Z;
      cbn [In] in Hx; intuition (subst; auto).
Qed.

(** The theorem at the default run in a world that has a directory
    already. *)
Lemma experiment_extends_world_witness :
  In "results"%string
     (fs_dirs
        (exec (experiment false 6 203 (of_Z 1) (Finite (14 # 100)) 200)
           (mkWorld (fun _ => true) ["results"%string] []))).
Proof.
  apply (proj1 (proj2 (proj2
           (experiment_extends_world false 6 203 (of_Z 1) (Finite (14 # 100))
              200 (mkWorld (fun _ => true) ["results"%string] []))))).
  left. reflexivity.
Defined.
